(** * The packaging descriptor [setup.py] of claude-ai-agents

    A shallow embedding of the descriptor: the two text files it reads, the
    list comprehension that turns [requirements.txt] into [install_requires],
    and the keyword arguments it hands to [setuptools.setup].

    The Python runtime pieces the descriptor calls ([open] in text mode with
    [encoding="utf-8"], [fh.read()], iteration over [fh], [str.strip],
    [str.startswith]) are modelled as executable functions on code points and
    bytes, so that every statement below can be evaluated on a concrete
    manifest. *)

From Stdlib Require Import NArith Strings.Byte.
From Stdlib Require Import String.
From stdpp Require Import gmap strings list fin_maps.

Local Open Scope N_scope.

(** ** Python [str] values *)

(** A [str] is a sequence of Unicode code points. *)
Module PyStr.

Abbreviation str := (list N).

(** An ASCII literal of the descriptor, as the [str] it denotes. *)
Definition lit (s : string) : str := map Byte.to_N (list_byte_of_string s).

(** [bool(s)]: a string is true when it is not empty. *)
Definition truthy (s : str) : bool :=
  match s with
  | [] => false
  | _ :: _ => true
  end.

(** [c.isspace()] for a single code point: the characters [str.strip()]
    removes when it is called without an argument. *)
Definition isspace (c : N) : bool :=
  ((0x09 <=? c) && (c <=? 0x0D))
  || ((0x1C <=? c) && (c <=? 0x20))
  || (c =? 0x85) || (c =? 0xA0) || (c =? 0x1680)
  || ((0x2000 <=? c) && (c <=? 0x200A))
  || (c =? 0x2028) || (c =? 0x2029) || (c =? 0x202F)
  || (c =? 0x205F) || (c =? 0x3000).

Fixpoint lstrip (s : str) : str :=
  match s with
  | [] => []
  | c :: rest => if isspace c then lstrip rest else s
  end.

Definition rstrip (s : str) : str := rev (lstrip (rev s)).

(** [s.strip()]: the slice between the first and the last character that
    is not white space. *)
Definition strip (s : str) : str := rstrip (lstrip s).

(** [s.startswith(prefix)]. *)
Fixpoint startswith (s prefix : str) {struct prefix} : bool :=
  match prefix with
  | [] => true
  | p :: prefix' =>
      match s with
      | [] => false
      | c :: s' => (c =? p) && startswith s' prefix'
      end
  end.

(** [s.removeprefix(prefix)] when [s] starts with it, [None] otherwise. *)
Fixpoint strip_prefix (prefix s : str) {struct prefix} : option str :=
  match prefix with
  | [] => Some s
  | p :: prefix' =>
      match s with
      | [] => None
      | c :: s' => if c =? p then strip_prefix prefix' s' else None
      end
  end.

(** [s.partition(sep)] for a one-character separator: the text before the
    first occurrence and the text after it, or [None] when there is none. *)
Fixpoint partition (sep : N) (s : str) : option (str * str) :=
  match s with
  | [] => None
  | c :: rest =>
      if c =? sep then Some ([], rest)
      else
        match partition sep rest with
        | Some (before, after) => Some (c :: before, after)
        | None => None
        end
  end.

End PyStr.

Import PyStr.

(** ** Text files *)

Module TextIO.

Definition is_continuation (b : N) : bool := (0x80 <=? b) && (b <=? 0xBF).

(** The bits a continuation byte contributes. *)
Definition low6 (b : N) : N := N.land b 0x3F.

(** The strict UTF-8 decoder of [encoding="utf-8"]: over-long forms,
    surrogates, code points above U+10FFFF, stray continuation bytes and
    truncated sequences are errors ([None]). *)
Fixpoint utf8_decode (bs : list byte) : option str :=
  match bs with
  | [] => Some []
  | b0 :: r0 =>
      let n0 := Byte.to_N b0 in
      if n0 <? 0x80 then
        cons n0 <$> utf8_decode r0
      else if n0 <? 0xC2 then None
      else if n0 <? 0xE0 then
        match r0 with
        | b1 :: r1 =>
            let n1 := Byte.to_N b1 in
            if is_continuation n1 then
              cons (N.lor (N.shiftl (N.land n0 0x1F) 6) (low6 n1))
                <$> utf8_decode r1
            else None
        | _ => None
        end
      else if n0 <? 0xF0 then
        match r0 with
        | b1 :: b2 :: r2 =>
            let n1 := Byte.to_N b1 in
            let n2 := Byte.to_N b2 in
            if is_continuation n1 && is_continuation n2
               && negb ((n0 =? 0xE0) && (n1 <? 0xA0))
               && negb ((n0 =? 0xED) && (0xA0 <=? n1))
            then
              cons (N.lor (N.shiftl (N.land n0 0x0F) 12)
                      (N.lor (N.shiftl (low6 n1) 6) (low6 n2)))
                <$> utf8_decode r2
            else None
        | _ => None
        end
      else if n0 <? 0xF5 then
        match r0 with
        | b1 :: b2 :: b3 :: r3 =>
            let n1 := Byte.to_N b1 in
            let n2 := Byte.to_N b2 in
            let n3 := Byte.to_N b3 in
            if is_continuation n1 && is_continuation n2 && is_continuation n3
               && negb ((n0 =? 0xF0) && (n1 <? 0x90))
               && negb ((n0 =? 0xF4) && (0x90 <=? n1))
            then
              cons (N.lor (N.shiftl (N.land n0 0x07) 18)
                      (N.lor (N.shiftl (low6 n1) 12)
                         (N.lor (N.shiftl (low6 n2) 6) (low6 n3))))
                <$> utf8_decode r3
            else None
        | _ => None
        end
      else None
  end.

Definition LF : N := 0x0A.
Definition CR : N := 0x0D.

(** Universal newlines ([newline=None], the default of [open]): on input
    every ["\r\n"] and every lone ["\r"] is handed to the program as
    ["\n"]. *)
Fixpoint translate_newlines (s : str) : str :=
  match s with
  | [] => []
  | c :: rest =>
      if c =? CR then
        LF :: match rest with
              | [] => []
              | d :: rest' =>
                  if d =? LF then translate_newlines rest'
                  else translate_newlines rest
              end
      else c :: translate_newlines rest
  end.

(** The lines [for line in fh] yields for a text whose newlines have been
    translated: each one runs up to and including its ["\n"]; the last one
    has none when the text does not end with it. *)
Fixpoint readlines (s : str) : list str :=
  match s with
  | [] => []
  | c :: rest =>
      if c =? LF then [c] :: readlines rest
      else
        match readlines rest with
        | [] => [[c]]
        | line :: lines => (c :: line) :: lines
        end
  end.

End TextIO.

Import TextIO.

(** ** Exceptions and outcomes *)

(** The exceptions the descriptor can let escape: from the two
    [with open(...)] blocks on a current interpreter, and from its first
    lines on a host that cannot run it. *)
Inductive exception :=
  | FileNotFoundError (filename : str)
  | UnicodeDecodeError (filename : str)
  | IsADirectoryError (filename : str)
  | PermissionError (filename : str)
  | OSError (filename : str)
  | IOError (filename : str)
  | ModuleNotFoundError
  | ImportError
  | TypeError
  | SyntaxError.

(** What running a piece of Python gives: a value, or an exception that
    nothing in the descriptor catches. *)
Inductive outcome (A : Type) :=
  | Returns (value : A)
  | Raises (exc : exception).

Arguments Returns {A} value.
Arguments Raises {A} exc.

#[global] Instance outcome_ret : MRet outcome := @Returns.

#[global] Instance outcome_bind : MBind outcome :=
  fun A B (k : A -> outcome B) (m : outcome A) =>
    match m with
    | Returns a => k a
    | Raises e => Raises e
    end.

#[global] Instance outcome_fmap : FMap outcome :=
  fun A B (f : A -> B) (m : outcome A) =>
    match m with
    | Returns a => Returns (f a)
    | Raises e => Raises e
    end.

Definition returns {A} (m : outcome A) : bool :=
  match m with
  | Returns _ => true
  | Raises _ => false
  end.

(** ** The environment the descriptor runs in *)

(** The regular, readable files of the working directory with their bytes,
    the package names [find_packages()] discovers there, and the version of
    the interpreter that runs the descriptor ([sys.version_info[:2]]).
    What else a host decides (whether [setuptools] can be imported, names
    that exist but cannot be opened) is in [host] below. *)
Record environment := {
  files : gmap str (list byte);
  found_packages : list str;
  runtime : N * N
}.

(** The text a stream opened with ["r", encoding="utf-8"] delivers for the
    bytes of a file: decoded, then with its newlines translated. *)
Definition decode_text (content : list byte) : option str :=
  translate_newlines <$> utf8_decode content.

(** [open(filename, "r", encoding="utf-8")] followed by reading the stream to
    its end, on Python 3.3 or later and for a name that is a regular,
    readable file or is missing ([open_on] below covers the other hosts).
    A missing file raises when it is opened, undecodable bytes raise while
    they are read; the descriptor does nothing in between. *)
Definition open_ (env : environment) (filename : str) : outcome str :=
  match files env !! filename with
  | None => Raises (FileNotFoundError filename)
  | Some content =>
      match decode_text content with
      | None => Raises (UnicodeDecodeError filename)
      | Some text => Returns text
      end
  end.

(** [fh.read()] *)
Definition read (fh : str) : str := fh.

(** [for line in fh] *)
Definition iter (fh : str) : list str := readlines fh.

(** ** The descriptor *)

(** The keyword arguments of the call [setup(...)]. *)
Record setup_args := {
  name : str;
  version : str;
  author : str;
  author_email : str;
  description : str;
  long_description : str;
  long_description_content_type : str;
  url : str;
  packages : list str;
  classifiers : list str;
  python_requires : str;
  install_requires : list str;
  extras_require : gmap str (list str);
  entry_points : gmap str (list str);
  include_package_data : bool;
  keywords : str;
  project_urls : gmap str str
}.

(** [[line.strip() for line in fh
      if line.strip() and not line.startswith("#")]] *)
Fixpoint requirements (fh : list str) : list str :=
  match fh with
  | [] => []
  | line :: fh' =>
      if truthy (strip line) && negb (startswith line (lit "#"))
      then strip line :: requirements fh'
      else requirements fh'
  end.

(** The list written after [classifiers=]. *)
Definition classifiers_literal : list str :=
  [ lit "Development Status :: 5 - Production/Stable";
    lit "Intended Audience :: Developers";
    lit "Intended Audience :: Education";
    lit "Topic :: Scientific/Engineering :: Artificial Intelligence";
    lit "License :: OSI Approved :: MIT License";
    lit "Programming Language :: Python :: 3";
    lit "Programming Language :: Python :: 3.8";
    lit "Programming Language :: Python :: 3.9";
    lit "Programming Language :: Python :: 3.10";
    lit "Programming Language :: Python :: 3.11" ].

(** The call [setup(...)]: its keyword arguments, evaluated in [env] once
    [long_description] and [requirements] are bound.  The classifier list is
    the parameter [cls]. *)
Definition setup (cls : list str) (env : environment)
    (long_description : str) (requirements : list str) : setup_args :=
  {|
    name := lit "claude-ai-agents";
    version := lit "1.0.0";
    author := lit "Nishant Das";
    author_email := lit "nishant@example.com";
    description := lit "A comprehensive suite of AI agents for research, code review, visualization, finance, audio analysis, and content creation";
    long_description := long_description;
    long_description_content_type := lit "text/markdown";
    url := lit "https://github.com/NishantDas0079/Claude-AI-Agents-Professional";
    packages := found_packages env;
    classifiers := cls;
    python_requires := lit ">=3.8";
    install_requires := requirements;
    extras_require :=
      {[ lit "dev" :=
           [ lit "pytest>=7.0";
             lit "pytest-cov>=4.0";
             lit "black>=23.0";
             lit "flake8>=6.0";
             lit "mypy>=1.5" ];
         lit "docs" :=
           [ lit "sphinx>=7.0";
             lit "sphinx-rtd-theme>=1.3" ] ]};
    entry_points :=
      {[ lit "console_scripts" :=
           [ lit "claude-agents=scripts.run_demo:main" ] ]};
    include_package_data := true;
    keywords := lit "ai agents, machine learning, data science, visualization, automation";
    project_urls :=
      {[ lit "Bug Reports" := lit "https://github.com/NishantDas0079/Claude-AI-Agents-Professional/issues";
         lit "Source" := lit "https://github.com/NishantDas0079/Claude-AI-Agents-Professional";
         lit "Documentation" := lit "https://github.com/NishantDas0079/Claude-AI-Agents-Professional/docs" ]}
  |}.

(** The descriptor from its first [with] block to the call of [setup], once
    its import has succeeded: the two [with] blocks in order, then the call.
    [script] below is the whole file, import included. *)
Definition descriptor (cls : list str) (env : environment)
  : outcome setup_args :=
  fh ← open_ env (lit "README.md");
  let long_description := read fh in
  fh ← open_ env (lit "requirements.txt");
  let requirements := requirements (iter fh) in
  mret (setup cls env long_description requirements).

(** Running lines 4 to 59 of [setup.py] as they are written. *)
Definition evaluate (env : environment) : outcome setup_args :=
  descriptor classifiers_literal env.

(** ** Reading the declared metadata *)

(** The metadata strings follow the packaging conventions the installer
    applies to them; the readers below give them their meaning so that the
    declarations can be stated as facts about commands, projects and
    versions, not only about strings. *)
Module Metadata.

(** A console script declaration [command = module:attr]. *)
Record entry_point := {
  command : str;
  module : str;
  attr : str
}.

Definition parse_entry_point (spec : str) : option entry_point :=
  '(lhs, rhs) ← partition 0x3D spec;
  '(modname, attrs) ← partition 0x3A rhs;
  Some {| command := strip lhs; module := strip modname; attr := strip attrs |}.

(** The console commands an argument record registers. *)
Definition console_scripts (entry_points : gmap str (list str))
  : list (option entry_point) :=
  parse_entry_point <$> default [] (entry_points !! lit "console_scripts").

Definition is_name_char (c : N) : bool :=
  ((0x30 <=? c) && (c <=? 0x39))
  || ((0x41 <=? c) && (c <=? 0x5A))
  || ((0x61 <=? c) && (c <=? 0x7A))
  || (c =? 0x2D) || (c =? 0x5F) || (c =? 0x2E).

(** The project a requirement string names: its leading run of name
    characters, before any version specifier. *)
Fixpoint requirement_name (requirement : str) : str :=
  match requirement with
  | [] => []
  | c :: rest => if is_name_char c then c :: requirement_name rest else []
  end.

Definition digit (c : N) : option N :=
  if (0x30 <=? c) && (c <=? 0x39) then Some (c - 0x30) else None.

Fixpoint decimal_from (acc : N) (s : str) : option N :=
  match s with
  | [] => Some acc
  | c :: rest => d ← digit c; decimal_from (10 * acc + d) rest
  end.

Definition decimal (s : str) : option N :=
  match s with
  | [] => None
  | _ :: _ => decimal_from 0 s
  end.

(** A two-component release number [major.minor]. *)
Definition parse_version (s : str) : option (N * N) :=
  '(major, minor) ← partition 0x2E s;
  a ← decimal major;
  b ← decimal minor;
  Some (a, b).

(** The bound of a [>=major.minor] specifier. *)
Definition minimum_version (specifier : str) : option (N * N) :=
  strip_prefix (lit ">=") specifier ≫= parse_version.

Definition version_lt (v w : N * N) : bool :=
  (v.1 <? w.1) || ((v.1 =? w.1) && (v.2 <? w.2)).

(** The classifiers filed under a top-level category, without it. *)
Definition filed_under (category : str) (classifiers : list str) : list str :=
  omap (strip_prefix (category ++ lit " :: ")) classifiers.

End Metadata.

Import Metadata.

(** ** Statements used by the theorems *)

(** A run of characters that [strip] removes. *)
Definition whitespace (s : str) : Prop := Forall (λ c, isspace c = true) s.

Definition README : str := lit "README.md".
Definition MANIFEST : str := lit "requirements.txt".

(** A manifest line that contributes a dependency, in the words of the
    description: its stripped form is not empty and its raw text does not
    begin with the comment sign. *)
Definition is_requirement_line (line : str) : Prop :=
  strip line ≠ [] ∧ head line ≠ Some 0x23.

#[global] Instance is_requirement_line_dec line :
  Decision (is_requirement_line line).
Proof. unfold is_requirement_line. apply _. Defined.

(** The dependency list as the description words it: the stripped form of
    every such line, in line order. *)
Definition spec_install_requires (lines : list str) : list str :=
  strip <$> filter is_requirement_line lines.

(** The dependency list as a function of the bytes of the manifest alone. *)
Definition manifest_requirements (content : list byte) : option (list str) :=
  (requirements ∘ iter ∘ read) <$> decode_text content.

(** The arguments the determinism statement lists. *)
Definition listed_arguments (args : setup_args) :=
  (name args, version args, long_description args, install_requires args,
   extras_require args, entry_points args, classifiers args,
   python_requires args).

(** Everything but the classifiers. *)
Definition without_classifiers (args : setup_args) : setup_args :=
  {| name := name args;
     version := version args;
     author := author args;
     author_email := author_email args;
     description := description args;
     long_description := long_description args;
     long_description_content_type := long_description_content_type args;
     url := url args;
     packages := packages args;
     classifiers := [];
     python_requires := python_requires args;
     install_requires := install_requires args;
     extras_require := extras_require args;
     entry_points := entry_points args;
     include_package_data := include_package_data args;
     keywords := keywords args;
     project_urls := project_urls args |}.

(** ** Sample environments *)

Definition sample_readme : list byte :=
  list_byte_of_string "# Claude AI Agents" ++ [x0d; x0a]
  ++ list_byte_of_string "Usage: claude-agents" ++ [x0a].

Definition sample_manifest : list byte :=
  list_byte_of_string "# pinned" ++ [x0a]
  ++ list_byte_of_string "  # indented" ++ [x0a; x0a]
  ++ list_byte_of_string " requests>=2.31 " ++ [x0d; x0a]
  ++ list_byte_of_string "numpy".

Definition sample_env : environment :=
  {| files := {[ README := sample_readme; MANIFEST := sample_manifest ]};
     found_packages := [lit "agents"];
     runtime := (3, 11) |}.

(** The same files in another directory tree, under an older interpreter. *)
Definition other_env : environment :=
  {| files := {[ README := sample_readme; MANIFEST := sample_manifest;
                 lit "LICENSE" := list_byte_of_string "MIT" ]};
     found_packages := [lit "agents"; lit "scripts"];
     runtime := (3, 7) |}.

(** A directory with no files. *)
Definition empty_env : environment :=
  {| files := ∅; found_packages := []; runtime := (3, 11) |}.

(** What the descriptor passes to [setup] in [sample_env]. *)
Definition sample_args : setup_args :=
  Eval vm_compute in
    match evaluate sample_env as o
          return (if returns o then setup_args else unit) with
    | Returns args => args
    | Raises _ => tt
    end.

(** A manifest that holds a comment and a blank line only. *)
Definition comments_env : environment :=
  {| files := {[ README := sample_readme;
                 MANIFEST := list_byte_of_string "# nothing yet"
                             ++ [x0a; x20; x0a] ]};
     found_packages := [];
     runtime := (3, 11) |}.

Definition comments_args : setup_args :=
  Eval vm_compute in
    match evaluate comments_env as o
          return (if returns o then setup_args else unit) with
    | Returns args => args
    | Raises _ => tt
    end.

(** A manifest with a Latin-1 byte in its last line, a comment. *)
Definition latin1_env : environment :=
  {| files := {[ README := sample_readme;
                 MANIFEST := (list_byte_of_string "numpy" ++ [x0a]
                              ++ list_byte_of_string "# caf")
                             ++ [xe9; x0a] ]};
     found_packages := [];
     runtime := (3, 11) |}.

(** ** Statements about the text pipeline *)

(** A string with something other than white space at both ends: what
    [strip] leaves of a line that is not blank. *)
Definition trimmed (r : str) : Prop :=
  ∃ c d, head r = Some c ∧ last r = Some d
         ∧ isspace c = false ∧ isspace d = false.

(** A text with every line feed written as [ending], the way a file is
    saved under another line ending convention. *)
Fixpoint with_line_ending (ending : str) (text : str) : str :=
  match text with
  | [] => []
  | c :: rest =>
      (if c =? LF then ending else [c]) ++ with_line_ending ending rest
  end.

(** The entries written out one per line. *)
Fixpoint unlines (entries : list str) : str :=
  match entries with
  | [] => []
  | r :: entries' => r ++ LF :: unlines entries'
  end.

(** One code point off the front of a byte sequence, with the bytes that
    follow it: the step [utf8_decode] repeats. *)
Definition utf8_step (bs : list byte) : option (N * list byte) :=
  match bs with
  | [] => None
  | b0 :: r0 =>
      let n0 := Byte.to_N b0 in
      if n0 <? 0x80 then Some (n0, r0)
      else if n0 <? 0xC2 then None
      else if n0 <? 0xE0 then
        match r0 with
        | b1 :: r1 =>
            let n1 := Byte.to_N b1 in
            if is_continuation n1 then
              Some (N.lor (N.shiftl (N.land n0 0x1F) 6) (low6 n1), r1)
            else None
        | _ => None
        end
      else if n0 <? 0xF0 then
        match r0 with
        | b1 :: b2 :: r2 =>
            let n1 := Byte.to_N b1 in
            let n2 := Byte.to_N b2 in
            if is_continuation n1 && is_continuation n2
               && negb ((n0 =? 0xE0) && (n1 <? 0xA0))
               && negb ((n0 =? 0xED) && (0xA0 <=? n1))
            then
              Some (N.lor (N.shiftl (N.land n0 0x0F) 12)
                      (N.lor (N.shiftl (low6 n1) 6) (low6 n2)), r2)
            else None
        | _ => None
        end
      else if n0 <? 0xF5 then
        match r0 with
        | b1 :: b2 :: b3 :: r3 =>
            let n1 := Byte.to_N b1 in
            let n2 := Byte.to_N b2 in
            let n3 := Byte.to_N b3 in
            if is_continuation n1 && is_continuation n2 && is_continuation n3
               && negb ((n0 =? 0xF0) && (n1 <? 0x90))
               && negb ((n0 =? 0xF4) && (0x90 <=? n1))
            then
              Some (N.lor (N.shiftl (N.land n0 0x07) 18)
                      (N.lor (N.shiftl (low6 n1) 12)
                         (N.lor (N.shiftl (low6 n2) 6) (low6 n3))), r3)
            else None
        | _ => None
        end
      else None
  end.

(** ** The whole script on a host *)

(** Why [open] refuses a name that exists. *)
Inductive open_failure :=
  | IsADirectory
  | PermissionDenied
  | OtherFailure.

(** A host: the working directory and interpreter of [environment], whether
    [setuptools] can be imported there, and the names that exist in the
    directory but that [open] refuses (a directory, a file without read
    permission); such a name is refused whatever [files] says of it. *)
Record host := {
  directory : environment;
  setuptools_importable : bool;
  unopenable : gmap str open_failure
}.

Definition interpreter (h : host) : N * N := runtime (directory h).

(** Compiling the file: its [with] statements are a syntax error before
    Python 2.6, and nothing of the file is run then. *)
Definition compile_source (h : host) : outcome unit :=
  if version_lt (interpreter h) (2, 6) then Raises SyntaxError
  else Returns ().

(** [from setuptools import setup, find_packages] (line 2).  The exception
    of a missing module is [ModuleNotFoundError] from Python 3.6 on and its
    base class [ImportError] before. *)
Definition import_setuptools (h : host) : outcome unit :=
  if setuptools_importable h then Returns ()
  else if version_lt (interpreter h) (3, 6) then Raises ImportError
  else Raises ModuleNotFoundError.

(** The exception of [open] for a name it cannot open: [None] is a name
    that does not exist.  The subclasses of [OSError] date from Python 3.3;
    before, [open] raises [IOError]. *)
Definition os_error (h : host) (failure : option open_failure)
    (filename : str) : exception :=
  if version_lt (interpreter h) (3, 3) then IOError filename
  else
    match failure with
    | None => FileNotFoundError filename
    | Some IsADirectory => IsADirectoryError filename
    | Some PermissionDenied => PermissionError filename
    | Some OtherFailure => OSError filename
    end.

(** [open(filename, "r", encoding="utf-8")] followed by reading the stream to
    its end, on any host.  Before Python 3 [open] has no [encoding] argument
    and the call is a [TypeError], whatever the name. *)
Definition open_on (h : host) (filename : str) : outcome str :=
  if version_lt (interpreter h) (3, 0) then Raises TypeError
  else
    match unopenable h !! filename with
    | Some failure => Raises (os_error h (Some failure) filename)
    | None =>
        match files (directory h) !! filename with
        | None => Raises (os_error h None filename)
        | Some content =>
            match decode_text content with
            | None => Raises (UnicodeDecodeError filename)
            | Some text => Returns text
            end
        end
    end.

(** The whole file, from its compilation to the call of [setup]: the import
    of line 2, the two [with] blocks in order, then the call. *)
Definition script (cls : list str) (h : host) : outcome setup_args :=
  _ ← compile_source h;
  _ ← import_setuptools h;
  fh ← open_on h (lit "README.md");
  let long_description := read fh in
  fh ← open_on h (lit "requirements.txt");
  let requirements := requirements (iter fh) in
  mret (setup cls (directory h) long_description requirements).

(** Running [setup.py] on a host. *)
Definition run (h : host) : outcome setup_args :=
  script classifiers_literal h.

(** A host that can run the descriptor: Python 3 with [setuptools]. *)
Definition supported (h : host) : Prop :=
  version_lt (interpreter h) (3, 0) = false ∧ setuptools_importable h = true.

(** A name that [open] opens and whose bytes are UTF-8. *)
Definition readable (h : host) (filename : str) : Prop :=
  unopenable h !! filename = None
  ∧ ∃ content,
      files (directory h) !! filename = Some content
      ∧ is_Some (decode_text content).

(** Modelled from the spec: the installer's enforcement of the declared
    minimum runtime version, which is no part of the sources ("the declared
    minimum runtime version is enforced at install time"; "installation on
    a runtime below the declared minimum is rejected").  The installer runs
    the descriptor for its arguments and refuses to install when the release
    of the interpreter is below the bound of [python_requires]. *)
Inductive installation :=
  | Installed (args : setup_args)
  | Rejected (bound : N * N)
  | Failed (exc : exception)
  | Unreadable_specifier.

Definition install (h : host) : installation :=
  match run h with
  | Raises exc => Failed exc
  | Returns args =>
      match minimum_version (python_requires args) with
      | None => Unreadable_specifier
      | Some bound =>
          if version_lt (interpreter h) bound then Rejected bound
          else Installed args
      end
  end.

(** The sample directory on Python 3.11 with [setuptools]. *)
Definition sample_host : host :=
  {| directory := sample_env;
     setuptools_importable := true;
     unopenable := ∅ |}.

(** The same files on Python 3.7 with [setuptools]. *)
Definition older_host : host :=
  {| directory := other_env;
     setuptools_importable := true;
     unopenable := ∅ |}.

(** An empty directory on Python 3.11 with [setuptools]. *)
Definition empty_host : host :=
  {| directory := empty_env;
     setuptools_importable := true;
     unopenable := ∅ |}.

(** * Properties *)

(** ** [str] methods *)

Section strip_facts.

Implicit Types (s t ws : str) (c : N).

Lemma truthy_nonempty s : truthy s = true ↔ s ≠ [].
Proof. destruct s; simpl; split; congruence. Qed.

Lemma startswith_hash s : startswith s (lit "#") = true ↔ head s = Some 0x23.
Proof.
  change (lit "#") with [0x23].
  destruct s as [|c s]; simpl.
  - split; discriminate.
  - rewrite andb_true_r, N.eqb_eq. split; congruence.
Qed.

Lemma lstrip_whitespace s : whitespace s → lstrip s = [].
Proof.
  induction 1 as [|c s Hc _ IH]; simpl; [reflexivity|].
  rewrite Hc. exact IH.
Qed.

Lemma lstrip_app_whitespace ws s : whitespace ws → lstrip (ws ++ s) = lstrip s.
Proof.
  induction 1 as [|c ws Hc _ IH]; simpl; [reflexivity|].
  rewrite Hc. exact IH.
Qed.

Lemma lstrip_app s t : ¬ whitespace s → lstrip (s ++ t) = lstrip s ++ t.
Proof.
  induction s as [|c s IH]; intros Hs.
  - destruct Hs. constructor.
  - simpl. destruct (isspace c) eqn:Hc; [|reflexivity].
    apply IH. intros Hws. apply Hs. constructor; assumption.
Qed.

Lemma whitespace_rev s : whitespace s → whitespace (rev s).
Proof.
  unfold whitespace. rewrite !Forall_forall.
  intros H c Hin. apply H.
  apply list_elem_of_In, in_rev, list_elem_of_In, Hin.
Qed.

Lemma rstrip_app_whitespace s ws : whitespace ws → rstrip (s ++ ws) = rstrip s.
Proof.
  intros Hws. unfold rstrip.
  rewrite rev_app_distr, lstrip_app_whitespace by (apply whitespace_rev, Hws).
  reflexivity.
Qed.

Lemma rstrip_cons c s : isspace c = false → rstrip (c :: s) = c :: rstrip s.
Proof.
  intros Hc. unfold rstrip. simpl rev.
  destruct (decide (whitespace (rev s))) as [Hs|Hs].
  - rewrite lstrip_app_whitespace, (lstrip_whitespace (rev s)) by assumption.
    simpl. rewrite Hc. reflexivity.
  - rewrite lstrip_app by assumption.
    rewrite rev_app_distr. reflexivity.
Qed.

(** White space around a line does not change its stripped form. *)
Lemma strip_pad ws s ws' :
  whitespace ws → whitespace ws' → strip (ws ++ s ++ ws') = strip s.
Proof.
  intros Hws Hws'. unfold strip.
  rewrite lstrip_app_whitespace by assumption.
  destruct (decide (whitespace s)) as [Hs|Hs].
  - rewrite (lstrip_whitespace s) by assumption.
    rewrite lstrip_whitespace; [reflexivity|].
    apply Forall_app; split; assumption.
  - rewrite lstrip_app by assumption.
    apply rstrip_app_whitespace, Hws'.
Qed.

Lemma strip_whitespace s : whitespace s → strip s = [].
Proof. intros Hs. unfold strip. rewrite lstrip_whitespace; done. Qed.

End strip_facts.

(** ** The comprehension *)

Section comprehension.

Implicit Types (line : str) (fh before after : list str).

Lemma requirement_line_test line :
  truthy (strip line) && negb (startswith line (lit "#")) = true
  ↔ is_requirement_line line.
Proof.
  unfold is_requirement_line.
  rewrite andb_true_iff, negb_true_iff, truthy_nonempty.
  rewrite <- startswith_hash, not_true_iff_false. reflexivity.
Qed.

Lemma requirements_cons_keep line fh :
  is_requirement_line line →
  requirements (line :: fh) = strip line :: requirements fh.
Proof.
  intros Hl. apply requirement_line_test in Hl.
  cbn [requirements]. rewrite Hl. reflexivity.
Qed.

Lemma requirements_cons_skip line fh :
  ¬ is_requirement_line line → requirements (line :: fh) = requirements fh.
Proof.
  intros Hl. rewrite <- requirement_line_test, not_true_iff_false in Hl.
  cbn [requirements]. rewrite Hl. reflexivity.
Qed.

(** The comprehension is the filter-then-strip of the description. *)
Lemma requirements_filter_map fh : requirements fh = spec_install_requires fh.
Proof.
  unfold spec_install_requires.
  induction fh as [|line fh IH]; [reflexivity|].
  destruct (decide (is_requirement_line line)) as [Hl|Hl].
  - rewrite requirements_cons_keep, filter_cons_True, IH by assumption.
    reflexivity.
  - rewrite requirements_cons_skip, filter_cons_False, IH by assumption.
    reflexivity.
Qed.

Lemma requirements_app before after :
  requirements (before ++ after) = requirements before ++ requirements after.
Proof.
  rewrite !requirements_filter_map. unfold spec_install_requires.
  rewrite filter_app, fmap_app. reflexivity.
Qed.

Lemma requirements_nonempty fh : Forall (λ r, r ≠ []) (requirements fh).
Proof.
  rewrite requirements_filter_map. unfold spec_install_requires.
  apply Forall_fmap, Forall_forall. intros line Hin.
  apply list_elem_of_filter in Hin as [[Hne _] _]. exact Hne.
Qed.

(** A line with the comment sign in its first column is dropped. *)
Lemma hash_line_not_requirement rest : ¬ is_requirement_line (0x23 :: rest).
Proof. intros [_ Hhead]. apply Hhead. reflexivity. Qed.

(** A line with white space before the comment sign is kept. *)
Lemma indented_hash_line ws rest :
  ws ≠ [] → whitespace ws →
  is_requirement_line (ws ++ 0x23 :: rest)
  ∧ strip (ws ++ 0x23 :: rest) = 0x23 :: rstrip rest.
Proof.
  intros Hne Hws.
  assert (Hstrip : strip (ws ++ 0x23 :: rest) = 0x23 :: rstrip rest).
  { unfold strip. rewrite lstrip_app_whitespace by assumption.
    simpl. apply rstrip_cons. reflexivity. }
  split; [|exact Hstrip]. split.
  - rewrite Hstrip. discriminate.
  - destruct Hws as [|c ws Hc _]; [congruence|].
    simpl. intros [= ->]. discriminate.
Qed.

End comprehension.

(** ** Running the descriptor *)

Lemma descriptor_returns cls env readme manifest readme_text text :
  files env !! README = Some readme →
  decode_text readme = Some readme_text →
  files env !! MANIFEST = Some manifest →
  decode_text manifest = Some text →
  descriptor cls env
  = Returns (setup cls env (read readme_text) (requirements (iter text))).
Proof.
  intros Hr Hrt Hm Hmt. unfold descriptor, open_.
  fold README MANIFEST. rewrite Hr, Hrt. simpl. rewrite Hm, Hmt. reflexivity.
Qed.

Lemma descriptor_returns_inv cls env args :
  descriptor cls env = Returns args →
  ∃ readme manifest readme_text text,
    files env !! README = Some readme
    ∧ decode_text readme = Some readme_text
    ∧ files env !! MANIFEST = Some manifest
    ∧ decode_text manifest = Some text
    ∧ args = setup cls env (read readme_text) (requirements (iter text)).
Proof.
  unfold descriptor, open_. fold README MANIFEST.
  destruct (files env !! README) as [readme|] eqn:Hr; [|discriminate].
  destruct (decode_text readme) as [readme_text|] eqn:Hrt; [|discriminate].
  simpl.
  destruct (files env !! MANIFEST) as [manifest|] eqn:Hm; [|discriminate].
  destruct (decode_text manifest) as [text|] eqn:Hmt; [|discriminate].
  intros [= <-]. exists readme, manifest, readme_text, text. auto.
Qed.

(** ** The dependency list *)

(** C3: for every manifest that decodes, the descriptor computes
    [install_requires] as the stripped form, in line order, of exactly the
    lines whose stripped form is not empty and whose raw text does not start
    with the comment sign; no element is empty; a line with white space
    before the comment sign contributes its text from the sign on, a line
    with the sign in its first column contributes nothing. *)
Theorem install_requires_from_lines
    (env : environment) (readme manifest : list byte) (readme_text text : str) :
  files env !! README = Some readme →
  decode_text readme = Some readme_text →
  files env !! MANIFEST = Some manifest →
  decode_text manifest = Some text →
  ∃ args,
    evaluate env = Returns args
    ∧ install_requires args = spec_install_requires (iter text)
    ∧ Forall (λ r, r ≠ []) (install_requires args)
    ∧ (∀ before ws rest after,
         ws ≠ [] → whitespace ws →
         iter text = before ++ (ws ++ 0x23 :: rest) :: after →
         install_requires args
         = spec_install_requires before
           ++ (0x23 :: rstrip rest) :: spec_install_requires after)
    ∧ (∀ before rest after,
         iter text = before ++ (0x23 :: rest) :: after →
         install_requires args
         = spec_install_requires before ++ spec_install_requires after).
Proof.
  intros Hr Hrt Hm Hmt.
  eexists. split; [eapply descriptor_returns; eassumption|].
  cbn [install_requires setup].
  split_and!.
  - apply requirements_filter_map.
  - apply requirements_nonempty.
  - intros before ws rest after Hne Hws ->.
    destruct (indented_hash_line ws rest Hne Hws) as [Hline Hstrip].
    rewrite requirements_app, requirements_cons_keep, Hstrip by assumption.
    rewrite !requirements_filter_map. reflexivity.
  - intros before rest after ->.
    rewrite requirements_app, requirements_cons_skip
      by apply hash_line_not_requirement.
    rewrite !requirements_filter_map. reflexivity.
Qed.

Lemma install_requires_from_lines_witness :
  files sample_env !! README = Some sample_readme
  ∧ decode_text sample_readme
    = Some (lit "# Claude AI Agents" ++ [LF] ++ lit "Usage: claude-agents" ++ [LF])
  ∧ files sample_env !! MANIFEST = Some sample_manifest
  ∧ decode_text sample_manifest
    = Some (lit "# pinned" ++ [LF] ++ lit "  # indented" ++ [LF; LF]
            ++ lit " requests>=2.31 " ++ [LF] ++ lit "numpy")
  ∧ ∃ args,
      evaluate sample_env = Returns args
      ∧ install_requires args
        = [lit "# indented"; lit "requests>=2.31"; lit "numpy"].
Proof.
  assert (Hr : files sample_env !! README = Some sample_readme)
    by (vm_compute; reflexivity).
  assert (Hrt : decode_text sample_readme
    = Some (lit "# Claude AI Agents" ++ [LF] ++ lit "Usage: claude-agents" ++ [LF]))
    by (vm_compute; reflexivity).
  assert (Hm : files sample_env !! MANIFEST = Some sample_manifest)
    by (vm_compute; reflexivity).
  assert (Hmt : decode_text sample_manifest
    = Some (lit "# pinned" ++ [LF] ++ lit "  # indented" ++ [LF; LF]
            ++ lit " requests>=2.31 " ++ [LF] ++ lit "numpy"))
    by (vm_compute; reflexivity).
  repeat (split; [assumption|]).
  destruct (install_requires_from_lines sample_env _ _ _ _ Hr Hrt Hm Hmt)
    as (args & Hev & Hreq & _).
  exists args. split; [exact Hev|].
  rewrite Hreq. vm_compute. reflexivity.
Defined.

(** ** Universal newlines *)

Section newlines.

Implicit Types (s rest : str) (c d : N).

Lemma translate_newlines_other c rest :
  c ≠ CR → translate_newlines (c :: rest) = c :: translate_newlines rest.
Proof. intros Hc. simpl. apply N.eqb_neq in Hc. rewrite Hc. reflexivity. Qed.

Lemma translate_newlines_crlf rest :
  translate_newlines (CR :: LF :: rest) = LF :: translate_newlines rest.
Proof. reflexivity. Qed.

Lemma translate_newlines_cr d rest :
  d ≠ LF →
  translate_newlines (CR :: d :: rest) = LF :: translate_newlines (d :: rest).
Proof.
  intros Hd. cbn [translate_newlines]. rewrite N.eqb_refl.
  apply N.eqb_neq in Hd. rewrite Hd. reflexivity.
Qed.

(** Induction along the cases of [translate_newlines]. *)
Lemma translate_newlines_cases (P : str → Prop) :
  P [] →
  (∀ c rest, c ≠ CR → P rest → P (c :: rest)) →
  P [CR] →
  (∀ rest, P rest → P (CR :: LF :: rest)) →
  (∀ d rest, d ≠ LF → P (d :: rest) → P (CR :: d :: rest)) →
  ∀ s, P s.
Proof.
  intros Hnil Hother Hlast Hcrlf Hcr s.
  enough (H : P s ∧ ∀ c, P (c :: s)) by apply H.
  induction s as [|d s [IHs IHcons]].
  - split; [exact Hnil|]. intros c.
    destruct (decide (c = CR)) as [->|Hc]; [exact Hlast|].
    apply Hother; assumption.
  - split; [apply IHcons|]. intros c.
    destruct (decide (c = CR)) as [->|Hc].
    + destruct (decide (d = LF)) as [->|Hd].
      * apply Hcrlf, IHs.
      * apply Hcr; [exact Hd|apply IHcons].
    + apply Hother; [exact Hc|apply IHcons].
Qed.

(** A text without carriage returns comes through unchanged. *)
Lemma translate_newlines_id s : CR ∉ s → translate_newlines s = s.
Proof.
  induction s as [|c s IH]; [reflexivity|].
  intros Hnotin. apply not_elem_of_cons in Hnotin as [Hc Hs].
  rewrite translate_newlines_other by congruence.
  rewrite IH by assumption. reflexivity.
Qed.

(** No carriage return reaches the program. *)
Lemma translate_newlines_no_cr s : CR ∉ translate_newlines s.
Proof.
  induction s as [|c rest Hc IH| |rest IH|d rest Hd IH]
    using translate_newlines_cases.
  - apply not_elem_of_nil.
  - rewrite translate_newlines_other by assumption.
    apply not_elem_of_cons. split; [congruence|assumption].
  - apply not_elem_of_cons. split; [discriminate|apply not_elem_of_nil].
  - rewrite translate_newlines_crlf.
    apply not_elem_of_cons. split; [discriminate|assumption].
  - rewrite translate_newlines_cr by assumption.
    apply not_elem_of_cons. split; [discriminate|assumption].
Qed.

(** Only line endings are rewritten: every other character is kept, in
    order. *)
Lemma translate_newlines_keeps s :
  filter (λ c, c ≠ CR ∧ c ≠ LF) (translate_newlines s)
  = filter (λ c, c ≠ CR ∧ c ≠ LF) s.
Proof.
  induction s as [|c rest Hc IH| |rest IH|d rest Hd IH]
    using translate_newlines_cases.
  - reflexivity.
  - rewrite translate_newlines_other by assumption.
    rewrite !filter_cons, IH. reflexivity.
  - reflexivity.
  - rewrite translate_newlines_crlf.
    rewrite !filter_cons_False by (intros [? ?]; congruence). exact IH.
  - rewrite translate_newlines_cr by assumption.
    rewrite !(filter_cons_False _ CR), (filter_cons_False _ LF)
      by (intros [? ?]; congruence).
    exact IH.
Qed.

End newlines.

(** ** Decoding *)

(** Bytes below 0x80 decode to themselves. *)
Lemma utf8_decode_ascii (bs : list byte) :
  Forall (λ b, Byte.to_N b < 0x80) bs → utf8_decode bs = Some (Byte.to_N <$> bs).
Proof.
  induction 1 as [|b bs Hb _ IH]; [reflexivity|].
  cbn [utf8_decode]. apply N.ltb_lt in Hb. rewrite Hb, IH. reflexivity.
Qed.

(** ** The long description *)

(** C9, as amended: when the descriptor reaches [setup], [long_description]
    is the decoded text of README.md with every line ending handed over as a
    line feed and nothing else trimmed, filtered or rewritten; it is the
    decoded text itself when that holds no carriage return, and the bytes of
    the file themselves when they are ASCII without carriage returns; its
    declared content type is text/markdown. *)
Theorem long_description_from_readme (env : environment) (args : setup_args) :
  evaluate env = Returns args →
  ∃ readme text,
    files env !! README = Some readme
    ∧ utf8_decode readme = Some text
    ∧ long_description args = translate_newlines text
    ∧ (CR ∉ text → long_description args = text)
    ∧ (Forall (λ b, Byte.to_N b < 0x80 ∧ Byte.to_N b ≠ CR) readme →
       long_description args = Byte.to_N <$> readme)
    ∧ (CR ∉ long_description args)
    ∧ filter (λ c, c ≠ CR ∧ c ≠ LF) (long_description args)
      = filter (λ c, c ≠ CR ∧ c ≠ LF) text
    ∧ long_description_content_type args = lit "text/markdown".
Proof.
  intros Hev.
  apply descriptor_returns_inv in Hev
    as (readme & manifest & readme_text & text & Hr & Hrt & _ & _ & ->).
  unfold decode_text in Hrt.
  destruct (utf8_decode readme) as [decoded|] eqn:Hdec; [|discriminate].
  injection Hrt as <-.
  exists readme, decoded. cbn [long_description long_description_content_type setup read].
  split_and!.
  - exact Hr.
  - exact Hdec.
  - reflexivity.
  - apply translate_newlines_id.
  - intros Hascii.
    rewrite utf8_decode_ascii in Hdec
      by (eapply Forall_impl; [exact Hascii|]; intros b [Hb _]; exact Hb).
    injection Hdec as <-.
    apply translate_newlines_id. intros Hin.
    apply list_elem_of_fmap in Hin as (b & Hb & Hin).
    rewrite Forall_forall in Hascii. destruct (Hascii b Hin) as [_ Hne].
    congruence.
  - apply translate_newlines_no_cr.
  - apply translate_newlines_keeps.
  - reflexivity.
Qed.

Lemma long_description_from_readme_witness :
  evaluate sample_env = Returns sample_args
  ∧ ∃ readme text,
      files sample_env !! README = Some readme
      ∧ utf8_decode readme = Some text
      ∧ long_description sample_args = translate_newlines text.
Proof.
  assert (Hev : evaluate sample_env = Returns sample_args)
    by (vm_compute; reflexivity).
  split; [exact Hev|].
  destruct (long_description_from_readme sample_env sample_args Hev)
    as (readme & text & Hr & Hdec & Hld & _).
  exists readme, text. auto.
Defined.

(** C9 as it is worded fails on a README.md with Windows line endings: the
    carriage returns of the file are not in [long_description]. *)
Lemma long_description_verbatim_counterexample :
  files sample_env !! README = Some sample_readme
  ∧ evaluate sample_env = Returns sample_args
  ∧ utf8_decode sample_readme
    = Some (lit "# Claude AI Agents" ++ [CR; LF]
            ++ lit "Usage: claude-agents" ++ [LF])
  ∧ long_description sample_args
    = lit "# Claude AI Agents" ++ [LF] ++ lit "Usage: claude-agents" ++ [LF]
  ∧ utf8_decode sample_readme ≠ Some (long_description sample_args).
Proof.
  split_and!; try (vm_compute; reflexivity).
  vm_compute. discriminate.
Qed.

(** ** Determinism *)

(** C10: two environments that hold the same README.md and the same
    requirements.txt give the same outcome on the listed arguments: the same
    exception, or the same name, version, long description, dependency list,
    extras, entry points, classifiers and Python requirement, whatever else
    differs between them. *)
Theorem listed_arguments_deterministic (env1 env2 : environment) :
  files env1 !! README = files env2 !! README →
  files env1 !! MANIFEST = files env2 !! MANIFEST →
  listed_arguments <$> evaluate env1 = listed_arguments <$> evaluate env2.
Proof.
  intros Hr Hm. unfold evaluate, descriptor, open_. fold README MANIFEST.
  rewrite <- Hr, <- Hm.
  destruct (files env1 !! README) as [readme|]; [|reflexivity].
  destruct (decode_text readme) as [readme_text|]; [|reflexivity].
  simpl.
  destruct (files env1 !! MANIFEST) as [manifest|]; [|reflexivity].
  destruct (decode_text manifest) as [text|]; reflexivity.
Qed.

Lemma listed_arguments_deterministic_witness :
  files sample_env !! README = files other_env !! README
  ∧ files sample_env !! MANIFEST = files other_env !! MANIFEST
  ∧ packages <$> evaluate sample_env ≠ packages <$> evaluate other_env
  ∧ listed_arguments <$> evaluate sample_env
    = listed_arguments <$> evaluate other_env.
Proof.
  assert (Hr : files sample_env !! README = files other_env !! README)
    by (vm_compute; reflexivity).
  assert (Hm : files sample_env !! MANIFEST = files other_env !! MANIFEST)
    by (vm_compute; reflexivity).
  split; [exact Hr|]. split; [exact Hm|]. split.
  - vm_compute. discriminate.
  - exact (listed_arguments_deterministic sample_env other_env Hr Hm).
Defined.

(** ** Declared metadata *)

(** C1: whenever the descriptor reaches [setup], the entry points it passes
    hold one group, [console_scripts], with one declaration: the command
    [claude-agents], bound to the attribute [main] of the module
    [scripts.run_demo]. *)
Theorem console_entry_point (env : environment) (args : setup_args) :
  evaluate env = Returns args →
  entry_points args
  = {[ lit "console_scripts" := [lit "claude-agents=scripts.run_demo:main"] ]}
  ∧ dom (entry_points args) = {[ lit "console_scripts" ]}
  ∧ console_scripts (entry_points args)
    = [Some {| command := lit "claude-agents";
               module := lit "scripts.run_demo";
               attr := lit "main" |}].
Proof.
  intros Hev.
  apply descriptor_returns_inv in Hev as (? & ? & ? & ? & _ & _ & _ & _ & ->).
  cbn [entry_points setup]. split_and!.
  - reflexivity.
  - apply dom_singleton_L.
  - vm_compute. reflexivity.
Qed.

Lemma console_entry_point_witness :
  evaluate sample_env = Returns sample_args
  ∧ console_scripts (entry_points sample_args)
    = [Some {| command := lit "claude-agents";
               module := lit "scripts.run_demo";
               attr := lit "main" |}].
Proof.
  assert (Hev : evaluate sample_env = Returns sample_args)
    by (vm_compute; reflexivity).
  split; [exact Hev|].
  exact (proj2 (proj2 (console_entry_point sample_env sample_args Hev))).
Defined.

(** C4: whenever the descriptor reaches [setup], the extras it passes are
    two groups: [dev] with pytest, pytest-cov, black, flake8 and mypy, and
    [docs] with sphinx and sphinx-rtd-theme. *)
Theorem optional_dependency_groups (env : environment) (args : setup_args) :
  evaluate env = Returns args →
  dom (extras_require args) = {[ lit "dev"; lit "docs" ]}
  ∧ size (extras_require args) = 2%nat
  ∧ extras_require args !! lit "dev"
    = Some [lit "pytest>=7.0"; lit "pytest-cov>=4.0"; lit "black>=23.0";
            lit "flake8>=6.0"; lit "mypy>=1.5"]
  ∧ extras_require args !! lit "docs"
    = Some [lit "sphinx>=7.0"; lit "sphinx-rtd-theme>=1.3"]
  ∧ requirement_name <$> default [] (extras_require args !! lit "dev")
    = [lit "pytest"; lit "pytest-cov"; lit "black"; lit "flake8"; lit "mypy"]
  ∧ requirement_name <$> default [] (extras_require args !! lit "docs")
    = [lit "sphinx"; lit "sphinx-rtd-theme"].
Proof.
  intros Hev.
  apply descriptor_returns_inv in Hev as (? & ? & ? & ? & _ & _ & _ & _ & ->).
  cbn [extras_require setup]. split_and!.
  - rewrite dom_insert_L, dom_singleton_L. reflexivity.
  - vm_compute. reflexivity.
  - vm_compute. reflexivity.
  - vm_compute. reflexivity.
  - vm_compute. reflexivity.
  - vm_compute. reflexivity.
Qed.

Lemma optional_dependency_groups_witness :
  evaluate sample_env = Returns sample_args
  ∧ dom (extras_require sample_args) = {[ lit "dev"; lit "docs" ]}.
Proof.
  assert (Hev : evaluate sample_env = Returns sample_args)
    by (vm_compute; reflexivity).
  split; [exact Hev|].
  exact (proj1 (optional_dependency_groups sample_env sample_args Hev)).
Defined.

(** C6: whenever the descriptor reaches [setup], the classifiers it passes
    are the written list, which files the package under the MIT license, the
    audiences Developers and Education and the topic Artificial
    Intelligence; with any other list in its place the descriptor passes
    that list on untouched and behaves the same in everything else. *)
Theorem classifiers_declared (env : environment) (args : setup_args) :
  evaluate env = Returns args →
  classifiers args = classifiers_literal
  ∧ filed_under (lit "License") (classifiers args)
    = [lit "OSI Approved :: MIT License"]
  ∧ filed_under (lit "Intended Audience") (classifiers args)
    = [lit "Developers"; lit "Education"]
  ∧ filed_under (lit "Topic") (classifiers args)
    = [lit "Scientific/Engineering :: Artificial Intelligence"]
  ∧ (∀ cls, classifiers <$> descriptor cls env = Returns cls)
  ∧ (∀ cls,
       without_classifiers <$> descriptor cls env
       = Returns (without_classifiers args)).
Proof.
  intros Hev.
  apply descriptor_returns_inv in Hev
    as (readme & manifest & readme_text & text & Hr & Hrt & Hm & Hmt & ->).
  cbn [classifiers setup]. split_and!.
  - reflexivity.
  - vm_compute. reflexivity.
  - vm_compute. reflexivity.
  - vm_compute. reflexivity.
  - intros cls.
    rewrite (descriptor_returns cls env _ _ _ _ Hr Hrt Hm Hmt). reflexivity.
  - intros cls.
    rewrite (descriptor_returns cls env _ _ _ _ Hr Hrt Hm Hmt). reflexivity.
Qed.

Lemma classifiers_declared_witness :
  evaluate sample_env = Returns sample_args
  ∧ classifiers sample_args = classifiers_literal
  ∧ filed_under (lit "License") (classifiers sample_args)
    = [lit "OSI Approved :: MIT License"].
Proof.
  assert (Hev : evaluate sample_env = Returns sample_args)
    by (vm_compute; reflexivity).
  split; [exact Hev|].
  destruct (classifiers_declared sample_env sample_args Hev)
    as (Hcls & Hlicense & _).
  split; assumption.
Defined.

(** ** The line format of the manifest *)

Section line_format.

Implicit Types (line ws : str) (fh before after : list str).

Lemma whitespace_head ws : whitespace ws → head ws ≠ Some 0x23.
Proof.
  destruct 1 as [|c ws Hc _]; [discriminate|].
  simpl. intros [= ->]. discriminate.
Qed.

Lemma head_pad ws line ws' :
  whitespace ws → whitespace ws' →
  head line ≠ Some 0x23 → head (ws ++ line ++ ws') ≠ Some 0x23.
Proof.
  intros Hws Hws' Hline.
  destruct ws as [|c ws]; [|exact (whitespace_head (c :: ws) Hws)].
  destruct line as [|d line]; [|exact Hline].
  exact (whitespace_head ws' Hws').
Qed.

(** Two lines with the same stripped form and the same first-column test
    contribute the same. *)
Lemma requirements_cons_congr line line' fh :
  strip line = strip line' →
  (head line = Some 0x23 ↔ head line' = Some 0x23) →
  requirements (line :: fh) = requirements (line' :: fh).
Proof.
  intros Hstrip Hhead.
  destruct (decide (is_requirement_line line)) as [Hl|Hl].
  - assert (Hl' : is_requirement_line line').
    { destruct Hl as [Hne Hh]. split; [congruence|tauto]. }
    rewrite !requirements_cons_keep by assumption. congruence.
  - assert (Hl' : ¬ is_requirement_line line').
    { intros [Hne Hh]. apply Hl. split; [congruence|tauto]. }
    rewrite !requirements_cons_skip by assumption. reflexivity.
Qed.

Lemma comment_line_ignored before line after :
  head line = Some 0x23 →
  requirements (before ++ line :: after) = requirements (before ++ after).
Proof.
  intros Hhead. rewrite !requirements_app.
  rewrite requirements_cons_skip; [reflexivity|].
  intros [_ Hh]. contradiction.
Qed.

Lemma blank_line_ignored before line after :
  whitespace line →
  requirements (before ++ line :: after) = requirements (before ++ after).
Proof.
  intros Hws. rewrite !requirements_app.
  rewrite requirements_cons_skip; [reflexivity|].
  intros [Hne _]. apply Hne, strip_whitespace, Hws.
Qed.

Lemma padding_ignored before ws line ws' after :
  whitespace ws → whitespace ws' → head line ≠ Some 0x23 →
  requirements (before ++ (ws ++ line ++ ws') :: after)
  = requirements (before ++ line :: after).
Proof.
  intros Hws Hws' Hhead. rewrite !requirements_app. f_equal.
  apply requirements_cons_congr.
  - apply strip_pad; assumption.
  - pose proof (head_pad ws line ws' Hws Hws' Hhead). tauto.
Qed.

End line_format.

(** C8 as it is worded fails on requirements.txt: the lines the stream
    delivers are not what reaches [setup]; the descriptor reads them as
    comments, blanks and padded entries. *)
Lemma manifest_interpreted_counterexample :
  evaluate sample_env = Returns sample_args
  ∧ iter <$> (files sample_env !! MANIFEST ≫= decode_text)
    = Some [lit "# pinned" ++ [LF]; lit "  # indented" ++ [LF]; [LF];
            lit " requests>=2.31 " ++ [LF]; lit "numpy"]
  ∧ install_requires sample_args
    = [lit "# indented"; lit "requests>=2.31"; lit "numpy"]
  ∧ Some (install_requires sample_args)
    ≠ iter <$> (files sample_env !! MANIFEST ≫= decode_text).
Proof.
  split_and!; try (vm_compute; reflexivity).
  vm_compute. discriminate.
Qed.

(** * Further properties of the text pipeline *)

(** ** What [strip] leaves *)

Section strip_shape.

Implicit Types (s t ws : str) (c : N).

Lemma last_rev s : last (rev s) = head s.
Proof. destruct s as [|c s]; [reflexivity|]. simpl. apply last_snoc. Qed.

Lemma head_rev s : head (rev s) = last s.
Proof. rewrite <- last_rev, rev_involutive. reflexivity. Qed.

Lemma lstrip_split s : ∃ ws, whitespace ws ∧ s = ws ++ lstrip s.
Proof.
  induction s as [|c s (ws & Hws & Hs)].
  - exists []. split; [constructor|reflexivity].
  - simpl. destruct (isspace c) eqn:Hc.
    + exists (c :: ws). split; [constructor; assumption|].
      simpl. f_equal. exact Hs.
    + exists []. split; [constructor|reflexivity].
Qed.

Lemma lstrip_head s c : head (lstrip s) = Some c → isspace c = false.
Proof.
  induction s as [|d s IH]; [discriminate|].
  simpl. destruct (isspace d) eqn:Hd; [exact IH|].
  simpl. intros [= <-]. exact Hd.
Qed.

Lemma rstrip_split s : ∃ ws, whitespace ws ∧ s = rstrip s ++ ws.
Proof.
  destruct (lstrip_split (rev s)) as (ws & Hws & Hs).
  exists (rev ws). split; [apply whitespace_rev, Hws|].
  unfold rstrip. rewrite <- rev_app_distr, <- Hs, rev_involutive.
  reflexivity.
Qed.

Lemma rstrip_last s c : last (rstrip s) = Some c → isspace c = false.
Proof. unfold rstrip. rewrite last_rev. apply lstrip_head. Qed.

Lemma strip_head s c : head (strip s) = Some c → isspace c = false.
Proof.
  unfold strip. destruct (lstrip s) as [|d t] eqn:Ht; [discriminate|].
  assert (Hd : isspace d = false) by (apply (lstrip_head s); rewrite Ht; reflexivity).
  rewrite rstrip_cons by exact Hd. simpl. intros [= <-]. exact Hd.
Qed.

Lemma strip_last s c : last (strip s) = Some c → isspace c = false.
Proof. apply rstrip_last. Qed.

(** [strip] removes white space from the two ends and nothing else. *)
Lemma strip_split s :
  ∃ ws ws', whitespace ws ∧ whitespace ws' ∧ s = ws ++ strip s ++ ws'.
Proof.
  destruct (lstrip_split s) as (ws & Hws & Hs).
  destruct (rstrip_split (lstrip s)) as (ws' & Hws' & Hl).
  exists ws, ws'. split_and!; [assumption..|].
  unfold strip. rewrite <- Hl. exact Hs.
Qed.

Lemma strip_trimmed s : strip s ≠ [] → trimmed (strip s).
Proof.
  intros Hne.
  destruct (head (strip s)) as [c|] eqn:Hc;
    [|apply head_None in Hc; contradiction].
  destruct (last (strip s)) as [d|] eqn:Hd;
    [|apply last_None in Hd; contradiction].
  exists c, d. split_and!.
  - exact Hc.
  - exact Hd.
  - apply (strip_head s), Hc.
  - apply (strip_last s), Hd.
Qed.

Lemma strip_nil_whitespace s : strip s = [] ↔ whitespace s.
Proof.
  split; [|apply strip_whitespace].
  intros Hnil. destruct (strip_split s) as (ws & ws' & Hws & Hws' & Hs).
  rewrite Hs, Hnil. apply Forall_app. split; assumption.
Qed.

(** A trimmed string is a fixed point of [strip]. *)
Lemma strip_fixed s : trimmed s → strip s = s.
Proof.
  intros (c & d & Hc & Hd & Hcs & Hds).
  assert (Hl : lstrip s = s).
  { destruct s as [|c' s]; [reflexivity|].
    simpl in Hc. injection Hc as ->. simpl. rewrite Hcs. reflexivity. }
  unfold strip, rstrip. rewrite Hl.
  assert (Hr : lstrip (rev s) = rev s).
  { pose proof (head_rev s) as Hh. rewrite Hd in Hh.
    destruct (rev s) as [|d' t]; [reflexivity|].
    simpl in Hh. injection Hh as ->. simpl. rewrite Hds. reflexivity. }
  rewrite Hr. apply rev_involutive.
Qed.

End strip_shape.

(** ** The lines of a stream *)

Section lines.

Implicit Types (s t body line : str) (c : N) (lines init : list str).

Lemma readlines_cons_lf s : readlines (LF :: s) = [LF] :: readlines s.
Proof. reflexivity. Qed.

Lemma readlines_cons_other c s :
  c ≠ LF →
  readlines (c :: s)
  = match readlines s with
    | [] => [[c]]
    | line :: lines => (c :: line) :: lines
    end.
Proof. intros Hc. simpl. apply N.eqb_neq in Hc. rewrite Hc. reflexivity. Qed.

Lemma readlines_nil s : readlines s = [] ↔ s = [].
Proof.
  split; [|intros ->; reflexivity].
  destruct s as [|c s]; [reflexivity|].
  destruct (decide (c = LF)) as [->|Hc].
  - rewrite readlines_cons_lf. discriminate.
  - rewrite readlines_cons_other by exact Hc.
    destruct (readlines s); discriminate.
Qed.

(** Iteration loses nothing: the lines put back together are the text. *)
Lemma readlines_concat s : concat (readlines s) = s.
Proof.
  induction s as [|c s IH]; [reflexivity|].
  destruct (decide (c = LF)) as [->|Hc].
  - rewrite readlines_cons_lf. simpl. rewrite IH. reflexivity.
  - rewrite readlines_cons_other by exact Hc.
    destruct (readlines s) as [|line lines] eqn:Hl.
    + apply readlines_nil in Hl as ->. reflexivity.
    + simpl in *. rewrite IH. reflexivity.
Qed.

(** A line is a body without line feed, followed by one line feed or, for
    the last line of a text that does not end with one, by nothing. *)
Lemma readlines_shape s :
  Forall (λ line, ∃ body, (LF ∉ body)
                          ∧ (line = body ++ [LF] ∨ (line = body ∧ body ≠ [])))
    (readlines s).
Proof.
  induction s as [|c s IH]; [constructor|].
  destruct (decide (c = LF)) as [->|Hc].
  - rewrite readlines_cons_lf. constructor; [|exact IH].
    exists []. split; [apply not_elem_of_nil|]. left. reflexivity.
  - rewrite readlines_cons_other by exact Hc.
    destruct (readlines s) as [|line lines].
    + constructor; [|constructor].
      exists [c]. split; [|right; split; [reflexivity|discriminate]].
      apply not_elem_of_cons. split; [congruence|apply not_elem_of_nil].
    + apply Forall_cons in IH as [(body & Hbody & Hline) IH].
      constructor; [|exact IH].
      exists (c :: body). split.
      * apply not_elem_of_cons. split; [congruence|exact Hbody].
      * destruct Hline as [->|[-> _]]; [left|right]; [reflexivity|].
        split; [reflexivity|discriminate].
Qed.

(** Only the last line can lack its line feed. *)
Lemma readlines_init s init line :
  readlines s = init ++ [line] → Forall (λ l, last l = Some LF) init.
Proof.
  revert init. induction s as [|c s IH]; intros init Hs.
  - destruct init; discriminate.
  - destruct (decide (c = LF)) as [->|Hc].
    + rewrite readlines_cons_lf in Hs.
      destruct init as [|l init]; [constructor|].
      injection Hs as <- Hs. constructor; [reflexivity|].
      apply IH, Hs.
    + rewrite readlines_cons_other in Hs by exact Hc.
      destruct (readlines s) as [|l lines] eqn:Hl.
      * destruct init as [|? init]; [constructor|].
        injection Hs as _ Hs. destruct init; discriminate.
      * destruct init as [|l' init]; [constructor|].
        injection Hs as <- ->.
        specialize (IH (l :: init) eq_refl).
        apply Forall_cons in IH as [Hlast IH].
        constructor; [|exact IH].
        destruct l; [discriminate|exact Hlast].
Qed.

(** A body without line feed and its line feed make one line. *)
Lemma readlines_line body t :
  LF ∉ body → readlines (body ++ LF :: t) = (body ++ [LF]) :: readlines t.
Proof.
  induction body as [|c body IH]; intros Hbody; [reflexivity|].
  apply not_elem_of_cons in Hbody as [Hc Hbody].
  rewrite <- !app_comm_cons. rewrite readlines_cons_other by congruence.
  rewrite IH by exact Hbody. reflexivity.
Qed.

(** A text that ends with a line feed is read the same whatever follows. *)
Lemma readlines_app_lf s t :
  readlines (s ++ LF :: t) = readlines (s ++ [LF]) ++ readlines t.
Proof.
  induction s as [|c s IH]; [reflexivity|].
  rewrite <- !app_comm_cons. destruct (decide (c = LF)) as [->|Hc].
  - rewrite !readlines_cons_lf, IH. reflexivity.
  - rewrite !readlines_cons_other by exact Hc. rewrite IH.
    destruct (readlines (s ++ [LF])) as [|line lines] eqn:Hl; [|reflexivity].
    apply readlines_nil in Hl. destruct s; discriminate.
Qed.

(** One more line feed at the end either closes the last line or adds a
    line of its own. *)
Lemma readlines_snoc_lf s :
  readlines (s ++ [LF]) = readlines s ++ [[LF]]
  ∨ ∃ init line,
      line ≠ [] ∧ readlines s = init ++ [line]
      ∧ readlines (s ++ [LF]) = init ++ [line ++ [LF]].
Proof.
  induction s as [|c s IH]; [left; reflexivity|].
  rewrite <- !app_comm_cons. destruct (decide (c = LF)) as [->|Hc].
  - rewrite !readlines_cons_lf.
    destruct IH as [->|(init & line & Hne & -> & ->)]; [left; reflexivity|].
    right. exists ([LF] :: init), line. auto.
  - rewrite !readlines_cons_other by exact Hc.
    destruct IH as [->|(init & line & Hne & -> & ->)].
    + destruct (readlines s) as [|l lines]; [|left; reflexivity].
      right. exists [], [c]. split_and!; [discriminate|reflexivity..].
    + right. destruct init as [|l init].
      * exists [], (c :: line). split_and!; [discriminate|reflexivity..].
      * exists ((c :: l) :: init), line. auto.
Qed.

End lines.

(** ** Decoding, one code point at a time *)

Section decoding.

Implicit Types (bs more rest : list byte) (c : N).

Lemma utf8_decode_unfold bs :
  utf8_decode bs
  = match bs with
    | [] => Some []
    | _ :: _ =>
        match utf8_step bs with
        | Some (c, rest) => cons c <$> utf8_decode rest
        | None => None
        end
    end.
Proof.
  destruct bs as [|b0 r0]; [reflexivity|].
  cbn [utf8_decode utf8_step].
  repeat (case_match; try reflexivity).
Qed.

Lemma utf8_step_app bs more c rest :
  utf8_step bs = Some (c, rest) →
  utf8_step (bs ++ more) = Some (c, rest ++ more)
  ∧ (length rest < length bs)%nat.
Proof.
  destruct bs as [|b0 r0]; [discriminate|].
  rewrite <- app_comm_cons. cbn [utf8_step].
  intros H.
  repeat (case_match; try discriminate; rewrite <- ?app_comm_cons);
    simplify_eq; (split; [try reflexivity | simpl; lia]).
Qed.

End decoding.
Lemma utf8_step_snoc_lf_none (bs : list byte) :
  bs ≠ [] → utf8_step bs = None → utf8_step (bs ++ [x0a]) = None.
Proof.
  destruct bs as [|b0 r0]; [congruence|]. intros _.
  rewrite <- app_comm_cons. cbn [utf8_step].
  intros H.
  repeat (case_match; try discriminate; try reflexivity;
          rewrite <- ?app_comm_cons, ?app_nil_l in *; simplify_eq).
  all: try (change (is_continuation (Byte.to_N x0a)) with false in *;
            rewrite ?andb_false_r in *; simpl in *; congruence).
  all: try congruence.
Qed.

(** Decoding goes through a concatenation when the first part decodes. *)
Lemma utf8_decode_app (bs more : list byte) (text : str) :
  utf8_decode bs = Some text →
  utf8_decode (bs ++ more) = (text ++.) <$> utf8_decode more.
Proof.
  revert text.
  induction bs as [bs IH] using (induction_ltof1 _ length). unfold ltof in IH.
  intros text H. rewrite utf8_decode_unfold in H.
  destruct bs as [|b0 r0].
  - injection H as <-. simpl. destruct (utf8_decode more); reflexivity.
  - destruct (utf8_step (b0 :: r0)) as [[c rest]|] eqn:Hs; [|discriminate].
    destruct (utf8_decode rest) as [t|] eqn:Hr; [|discriminate].
    injection H as <-.
    destruct (utf8_step_app _ more _ _ Hs) as [Hstep Hlen].
    rewrite utf8_decode_unfold, <- app_comm_cons, app_comm_cons, Hstep.
    rewrite (IH rest Hlen t Hr).
    destruct (utf8_decode more); reflexivity.
Qed.

(** A line feed byte at the end of a file is a line feed at the end of its
    text, and does not make a file decodable or undecodable. *)
Lemma utf8_decode_snoc_lf (bs : list byte) :
  utf8_decode (bs ++ [x0a]) = (.++ [LF]) <$> utf8_decode bs.
Proof.
  induction bs as [bs IH] using (induction_ltof1 _ length). unfold ltof in IH.
  destruct bs as [|b0 r0]; [reflexivity|].
  rewrite (utf8_decode_unfold (b0 :: r0)).
  rewrite utf8_decode_unfold, <- app_comm_cons, app_comm_cons.
  destruct (utf8_step (b0 :: r0)) as [[c rest]|] eqn:Hs.
  - destruct (utf8_step_app _ [x0a] _ _ Hs) as [-> Hlen].
    rewrite (IH rest Hlen).
    destruct (utf8_decode rest); reflexivity.
  - rewrite utf8_step_snoc_lf_none by (exact Hs || discriminate).
    reflexivity.
Qed.

(** ** Line endings *)

Section line_endings.

Implicit Types (u v s text ending : str) (c : N).

Lemma translate_newlines_cr_cons s :
  head s ≠ Some LF → translate_newlines (CR :: s) = LF :: translate_newlines s.
Proof.
  destruct s as [|d s]; [reflexivity|].
  intros Hd. apply translate_newlines_cr. simpl in Hd. congruence.
Qed.

(** A line feed cuts the translation in two. *)
Lemma translate_newlines_app_lf u v :
  translate_newlines (u ++ LF :: v)
  = translate_newlines (u ++ [LF]) ++ translate_newlines v.
Proof.
  induction u as [|c rest Hc IH| |rest IH|d rest Hd IH]
    using translate_newlines_cases.
  - reflexivity.
  - rewrite <- !app_comm_cons, !translate_newlines_other by assumption.
    rewrite IH. reflexivity.
  - reflexivity.
  - rewrite <- !app_comm_cons, !translate_newlines_crlf, IH. reflexivity.
  - rewrite <- !app_comm_cons, !translate_newlines_cr by assumption.
    rewrite !app_comm_cons, IH. reflexivity.
Qed.

(** A final line feed stays one, and is absorbed by a carriage return just
    before it. *)
Lemma translate_newlines_snoc_lf u :
  translate_newlines (u ++ [LF]) = translate_newlines u ++ [LF]
  ∨ translate_newlines (u ++ [LF]) = translate_newlines u.
Proof.
  induction u as [|c rest Hc IH| |rest IH|d rest Hd IH]
    using translate_newlines_cases.
  - left. reflexivity.
  - rewrite <- !app_comm_cons, !translate_newlines_other by assumption.
    destruct IH as [->| ->]; [left|right]; reflexivity.
  - right. reflexivity.
  - rewrite <- !app_comm_cons, !translate_newlines_crlf.
    destruct IH as [->| ->]; [left|right]; reflexivity.
  - rewrite <- !app_comm_cons, !translate_newlines_cr by assumption.
    rewrite app_comm_cons.
    destruct IH as [->| ->]; [left|right]; reflexivity.
Qed.

Lemma translate_newlines_snoc_lf_ends u :
  ∃ s, translate_newlines (u ++ [LF]) = s ++ [LF].
Proof.
  induction u as [|c rest Hc [s IH]| |rest [s IH]|d rest Hd [s IH]]
    using translate_newlines_cases.
  - exists []. reflexivity.
  - exists (c :: s).
    rewrite <- app_comm_cons, translate_newlines_other, IH by assumption.
    reflexivity.
  - exists []. reflexivity.
  - exists (LF :: s).
    rewrite <- !app_comm_cons, translate_newlines_crlf, IH. reflexivity.
  - exists (LF :: s).
    rewrite <- !app_comm_cons, translate_newlines_cr by assumption.
    rewrite app_comm_cons, IH. reflexivity.
Qed.

Lemma with_line_ending_cr_head text :
  head (with_line_ending [CR] text) ≠ Some LF.
Proof.
  destruct text as [|c text]; [discriminate|].
  simpl. destruct (c =? LF) eqn:Hc; simpl; [discriminate|].
  apply N.eqb_neq in Hc. congruence.
Qed.

(** Reading undoes each of the three line ending conventions. *)
Lemma translate_with_line_ending ending text :
  ending ∈ [[LF]; [CR; LF]; [CR]] → CR ∉ text →
  translate_newlines (with_line_ending ending text) = text.
Proof.
  intros Hending. induction text as [|c text IH]; [reflexivity|].
  intros Hcr. apply not_elem_of_cons in Hcr as [Hc Hcr].
  specialize (IH Hcr). cbn [with_line_ending].
  destruct (c =? LF) eqn:Hlf.
  - apply N.eqb_eq in Hlf as ->.
    apply elem_of_cons in Hending as [->|Hending];
      [|apply elem_of_cons in Hending as [->|Hending];
        [|apply list_elem_of_singleton in Hending as ->]].
    + simpl app. rewrite translate_newlines_other, IH by discriminate.
      reflexivity.
    + simpl app. rewrite translate_newlines_crlf, IH. reflexivity.
    + simpl app.
      rewrite translate_newlines_cr_cons, IH
        by apply with_line_ending_cr_head.
      reflexivity.
  - simpl app. rewrite translate_newlines_other, IH by congruence.
    reflexivity.
Qed.

End line_endings.

(** ** What the dependency list can hold *)

Section entries.

Implicit Types (line r : str) (fh : list str) (text : str).

Lemma requirements_elem r fh :
  r ∈ requirements fh ↔ ∃ line, line ∈ fh ∧ is_requirement_line line ∧ r = strip line.
Proof.
  rewrite requirements_filter_map. unfold spec_install_requires.
  rewrite list_elem_of_fmap. split.
  - intros (line & -> & Hin). apply list_elem_of_filter in Hin as [Hl Hin].
    exists line. auto.
  - intros (line & Hin & Hl & ->). exists line. split; [reflexivity|].
    apply list_elem_of_filter. auto.
Qed.

Lemma strip_subseteq line c : c ∈ strip line → c ∈ line.
Proof.
  intros Hc. destruct (strip_split line) as (ws & ws' & _ & _ & Hs).
  rewrite Hs, !elem_of_app. auto.
Qed.

Lemma strip_snoc_lf line : strip (line ++ [LF]) = strip line.
Proof.
  apply (strip_pad [] line [LF]); [constructor|].
  constructor; [reflexivity|constructor].
Qed.

Lemma readlines_elem_no_lf text line : line ∈ readlines text → LF ∉ strip line.
Proof.
  intros Hin.
  pose proof (readlines_shape text) as Hshape.
  rewrite Forall_forall in Hshape.
  destruct (Hshape line Hin) as (body & Hbody & [->|[-> _]]).
  - rewrite strip_snoc_lf. intros Hlf. apply Hbody, strip_subseteq, Hlf.
  - intros Hlf. apply Hbody, strip_subseteq, Hlf.
Qed.

Lemma readlines_elem_subseteq text line c :
  line ∈ readlines text → c ∈ line → c ∈ text.
Proof.
  intros Hline Hc. rewrite <- (readlines_concat text).
  apply list_elem_of_In, in_concat. exists line.
  split; apply list_elem_of_In; assumption.
Qed.

End entries.

(** X1: every dependency the descriptor passes to [setup] begins and ends
    with a character that is not white space, and holds neither a line feed
    nor a carriage return. *)
Theorem install_requires_entries_shape (env : environment) (args : setup_args) :
  evaluate env = Returns args →
  Forall (λ r, trimmed r ∧ (LF ∉ r) ∧ (CR ∉ r)) (install_requires args).
Proof.
  intros Hev.
  apply descriptor_returns_inv in Hev
    as (readme & manifest & readme_text & text & _ & _ & _ & Hmt & ->).
  cbn [install_requires setup]. apply Forall_forall. intros r Hr.
  apply requirements_elem in Hr as (line & Hin & [Hne _] & ->).
  unfold iter in Hin. split_and!.
  - apply strip_trimmed, Hne.
  - apply (readlines_elem_no_lf text), Hin.
  - intros Hcr. apply strip_subseteq in Hcr.
    apply (readlines_elem_subseteq text) in Hcr; [|exact Hin].
    unfold decode_text in Hmt.
    destruct (utf8_decode manifest) as [u|]; [|discriminate].
    injection Hmt as <-. exact (translate_newlines_no_cr u Hcr).
Qed.

Lemma install_requires_entries_shape_witness :
  evaluate sample_env = Returns sample_args
  ∧ Forall (λ r, trimmed r ∧ (LF ∉ r) ∧ (CR ∉ r)) (install_requires sample_args).
Proof.
  assert (Hev : evaluate sample_env = Returns sample_args)
    by (vm_compute; reflexivity).
  split; [exact Hev|].
  exact (install_requires_entries_shape sample_env sample_args Hev).
Defined.

(** X2: every dependency the descriptor passes to [setup] is a line of
    requirements.txt without the white space at its two ends, and that line
    does not begin with the comment sign: nothing inside a line is removed or
    rewritten. *)
Theorem install_requires_provenance (env : environment) (args : setup_args) :
  evaluate env = Returns args →
  ∃ manifest text,
    files env !! MANIFEST = Some manifest
    ∧ decode_text manifest = Some text
    ∧ ∀ r, r ∈ install_requires args →
        ∃ line ws ws',
          line ∈ iter text
          ∧ line = ws ++ r ++ ws'
          ∧ whitespace ws ∧ whitespace ws'
          ∧ head line ≠ Some 0x23.
Proof.
  intros Hev.
  apply descriptor_returns_inv in Hev
    as (readme & manifest & readme_text & text & _ & _ & Hm & Hmt & ->).
  exists manifest, text. split_and!; [exact Hm|exact Hmt|].
  cbn [install_requires setup]. intros r Hr.
  apply requirements_elem in Hr as (line & Hin & [_ Hhead] & ->).
  destruct (strip_split line) as (ws & ws' & Hws & Hws' & Hs).
  exists line, ws, ws'. auto.
Qed.

Lemma install_requires_provenance_witness :
  evaluate sample_env = Returns sample_args
  ∧ ∃ line ws ws',
      lit "requests>=2.31" ∈ install_requires sample_args
      ∧ line = ws ++ lit "requests>=2.31" ++ ws'
      ∧ whitespace ws ∧ whitespace ws'.
Proof.
  assert (Hev : evaluate sample_env = Returns sample_args)
    by (vm_compute; reflexivity).
  split; [exact Hev|].
  destruct (install_requires_provenance sample_env sample_args Hev)
    as (manifest & text & _ & _ & Hall).
  assert (Hin : lit "requests>=2.31" ∈ install_requires sample_args).
  { vm_compute. apply list_elem_of_further, list_elem_of_here. }
  destruct (Hall _ Hin) as (line & ws & ws' & _ & Hline & Hws & Hws' & _).
  exists line, ws, ws'. auto.
Defined.

(** X3: the dependency list is empty exactly when every line of
    requirements.txt is white space or begins with the comment sign; an
    empty file is such a file. *)
Theorem install_requires_empty (env : environment) (args : setup_args) :
  evaluate env = Returns args →
  ∃ manifest text,
    files env !! MANIFEST = Some manifest
    ∧ decode_text manifest = Some text
    ∧ (install_requires args = []
       ↔ ∀ line, line ∈ iter text → whitespace line ∨ head line = Some 0x23)
    ∧ (manifest = [] → install_requires args = []).
Proof.
  intros Hev.
  apply descriptor_returns_inv in Hev
    as (readme & manifest & readme_text & text & _ & _ & Hm & Hmt & ->).
  exists manifest, text. split_and!; [exact Hm|exact Hmt| |].
  - cbn [install_requires setup]. split.
    + intros Hnil line Hin.
      destruct (decide (head line = Some 0x23)) as [Hh|Hh]; [right; exact Hh|].
      left. apply strip_nil_whitespace.
      destruct (decide (strip line = [])) as [Hs|Hs]; [exact Hs|].
      assert (Hr : strip line ∈ requirements (iter text)).
      { apply requirements_elem. exists line. split_and!; auto. split; assumption. }
      rewrite Hnil in Hr. apply elem_of_nil in Hr. contradiction.
    + intros Hall.
      destruct (requirements (iter text)) as [|r rs] eqn:Hreq; [reflexivity|].
      assert (Hr : r ∈ requirements (iter text))
        by (rewrite Hreq; apply list_elem_of_here).
      apply requirements_elem in Hr as (line & Hin & [Hne Hhead] & _).
      destruct (Hall line Hin) as [Hws|Hh]; [|contradiction].
      apply strip_nil_whitespace in Hws. contradiction.
  - intros ->. injection Hmt as <-. reflexivity.
Qed.

Lemma install_requires_empty_witness :
  evaluate comments_env = Returns comments_args
  ∧ install_requires comments_args = [].
Proof.
  assert (Hev : evaluate comments_env = Returns comments_args)
    by (vm_compute; reflexivity).
  split; [exact Hev|].
  destruct (install_requires_empty comments_env comments_args Hev)
    as (manifest & text & Hm & Hmt & [_ Hall] & _).
  apply Hall. intros line Hin.
  assert (Hm' : files comments_env !! MANIFEST
                = Some (list_byte_of_string "# nothing yet" ++ [x0a; x20; x0a]))
    by (vm_compute; reflexivity).
  rewrite Hm' in Hm. injection Hm as <-.
  vm_compute in Hmt. injection Hmt as <-.
  vm_compute in Hin.
  apply elem_of_cons in Hin as [->|Hin]; [right; reflexivity|].
  apply list_elem_of_singleton in Hin as ->.
  left. repeat constructor.
Defined.

(** ** How manifests compose *)

Section manifests.

Implicit Types (s t line r : str) (fh rs : list str) (m : list byte).

Lemma head_snoc_nonempty line c : line ≠ [] → head (line ++ [c]) = head line.
Proof. destruct line; [congruence|reflexivity]. Qed.

Lemma requirements_readlines_snoc_lf s :
  requirements (readlines (s ++ [LF])) = requirements (readlines s).
Proof.
  destruct (readlines_snoc_lf s) as [->|(init & line & Hne & -> & ->)].
  - rewrite requirements_app. apply app_nil_r.
  - rewrite !requirements_app. f_equal.
    apply requirements_cons_congr; [apply strip_snoc_lf|].
    rewrite head_snoc_nonempty by exact Hne. reflexivity.
Qed.

Lemma requirements_unlines_filter rs :
  Forall (λ r, trimmed r ∧ LF ∉ r) rs →
  requirements (readlines (unlines rs)) = filter (λ r, head r ≠ Some 0x23) rs.
Proof.
  induction 1 as [|r rs [Htrim Hlf] _ IH]; [reflexivity|].
  cbn [unlines]. rewrite readlines_line by exact Hlf.
  assert (Hne : r ≠ []).
  { destruct Htrim as (c & _ & Hc & _). intros ->. discriminate. }
  assert (Hstrip : strip (r ++ [LF]) = r)
    by (rewrite strip_snoc_lf; apply strip_fixed, Htrim).
  destruct (decide (head r = Some 0x23)) as [Hh|Hh].
  - rewrite requirements_cons_skip, filter_cons_False, IH; [reflexivity|tauto|].
    intros [_ Hhead]. rewrite head_snoc_nonempty in Hhead by exact Hne.
    contradiction.
  - rewrite requirements_cons_keep, filter_cons_True, Hstrip, IH;
      [reflexivity|exact Hh|].
    split; [congruence|]. rewrite head_snoc_nonempty by exact Hne. exact Hh.
Qed.

End manifests.

(** X4: a line feed added at the end of requirements.txt changes nothing:
    the file decodes if and only if it did, and to the same dependencies. *)
Theorem final_newline_immaterial (manifest : list byte) :
  manifest_requirements (manifest ++ [x0a]) = manifest_requirements manifest.
Proof.
  unfold manifest_requirements, decode_text.
  rewrite utf8_decode_snoc_lf.
  destruct (utf8_decode manifest) as [u|]; [|reflexivity].
  simpl. f_equal. unfold iter, read.
  destruct (translate_newlines_snoc_lf u) as [->| ->]; [|reflexivity].
  apply requirements_readlines_snoc_lf.
Qed.

(** X5: a manifest that ends with a line feed, followed by a second
    manifest, gives the dependencies of the first followed by those of the
    second. *)
Theorem manifest_concatenation (m1 m2 : list byte) (r1 r2 : list str) :
  manifest_requirements (m1 ++ [x0a]) = Some r1 →
  manifest_requirements m2 = Some r2 →
  manifest_requirements ((m1 ++ [x0a]) ++ m2) = Some (r1 ++ r2).
Proof.
  unfold manifest_requirements, decode_text. intros H1 H2.
  destruct (utf8_decode (m1 ++ [x0a])) as [u1|] eqn:Hu1; [|discriminate].
  rewrite (utf8_decode_app _ m2 u1 Hu1).
  destruct (utf8_decode m2) as [u2|]; [|discriminate].
  rewrite utf8_decode_snoc_lf in Hu1.
  destruct (utf8_decode m1) as [u|]; [|discriminate].
  injection Hu1 as <-. simpl in *.
  injection H1 as <-. injection H2 as <-.
  f_equal. unfold iter, read.
  rewrite <- app_assoc. simpl app. rewrite translate_newlines_app_lf.
  destruct (translate_newlines_snoc_lf_ends u) as [s ->].
  rewrite <- app_assoc. simpl app.
  rewrite readlines_app_lf, requirements_app. reflexivity.
Qed.

Lemma manifest_concatenation_witness :
  manifest_requirements (list_byte_of_string "requests" ++ [x0a])
  = Some [lit "requests"]
  ∧ manifest_requirements sample_manifest
    = Some [lit "# indented"; lit "requests>=2.31"; lit "numpy"]
  ∧ manifest_requirements
      ((list_byte_of_string "requests" ++ [x0a]) ++ sample_manifest)
    = Some ([lit "requests"]
            ++ [lit "# indented"; lit "requests>=2.31"; lit "numpy"]).
Proof.
  assert (H1 : manifest_requirements (list_byte_of_string "requests" ++ [x0a])
               = Some [lit "requests"]) by (vm_compute; reflexivity).
  assert (H2 : manifest_requirements sample_manifest
               = Some [lit "# indented"; lit "requests>=2.31"; lit "numpy"])
    by (vm_compute; reflexivity).
  split; [exact H1|]. split; [exact H2|].
  exact (manifest_concatenation _ _ _ _ H1 H2).
Defined.

(** X6: iterating over a stream cuts it into lines and loses nothing: the
    lines put end to end are the text, no line is empty, a line feed occurs
    only as the last character of a line, and only the last line can lack
    it. *)
Theorem iter_partitions_stream (fh : str) :
  concat (iter fh) = fh
  ∧ Forall (λ line, ∃ body, (LF ∉ body)
                            ∧ (line = body ++ [LF] ∨ (line = body ∧ body ≠ [])))
      (iter fh)
  ∧ (∀ init line,
       iter fh = init ++ [line] → Forall (λ l, last l = Some LF) init).
Proof.
  unfold iter. split_and!.
  - apply readlines_concat.
  - apply readlines_shape.
  - intros init line. apply readlines_init.
Qed.

(** X7: a manifest whose text is a list of trimmed, single-line entries
    written one per line gives back the entries that do not begin with the
    comment sign, in order: all of them when none does. *)
Theorem manifest_of_entries (manifest : list byte) (rs : list str) :
  Forall (λ r, trimmed r ∧ LF ∉ r) rs →
  decode_text manifest = Some (unlines rs) →
  manifest_requirements manifest
  = Some (filter (λ r, head r ≠ Some 0x23) rs)
  ∧ (Forall (λ r, head r ≠ Some 0x23) rs →
     manifest_requirements manifest = Some rs).
Proof.
  intros Hrs Hm.
  assert (H : manifest_requirements manifest
              = Some (filter (λ r, head r ≠ Some 0x23) rs)).
  { unfold manifest_requirements. rewrite Hm. simpl. f_equal.
    apply requirements_unlines_filter, Hrs. }
  split; [exact H|].
  intros Hall. rewrite H. f_equal.
  clear -Hall. induction Hall as [|r rs Hr _ IH]; [reflexivity|].
  rewrite filter_cons_True by exact Hr. f_equal. exact IH.
Qed.

Lemma manifest_of_entries_witness :
  Forall (λ r, trimmed r ∧ LF ∉ r) [lit "requests>=2.31"; lit "# numpy"]
  ∧ decode_text (list_byte_of_string "requests>=2.31" ++ [x0a]
                 ++ list_byte_of_string "# numpy" ++ [x0a])
    = Some (unlines [lit "requests>=2.31"; lit "# numpy"])
  ∧ manifest_requirements (list_byte_of_string "requests>=2.31" ++ [x0a]
                           ++ list_byte_of_string "# numpy" ++ [x0a])
    = Some [lit "requests>=2.31"].
Proof.
  assert (Hrs : Forall (λ r, trimmed r ∧ LF ∉ r)
                  [lit "requests>=2.31"; lit "# numpy"]).
  { repeat constructor; try (eexists _, _; vm_compute; split_and!; reflexivity).
    - intros Hin. vm_compute in Hin.
      repeat (apply elem_of_cons in Hin as [Hin|Hin]; [discriminate|]).
      apply elem_of_nil in Hin. exact Hin.
    - intros Hin. vm_compute in Hin.
      repeat (apply elem_of_cons in Hin as [Hin|Hin]; [discriminate|]).
      apply elem_of_nil in Hin. exact Hin. }
  assert (Hm : decode_text (list_byte_of_string "requests>=2.31" ++ [x0a]
                            ++ list_byte_of_string "# numpy" ++ [x0a])
               = Some (unlines [lit "requests>=2.31"; lit "# numpy"]))
    by (vm_compute; reflexivity).
  split; [exact Hrs|]. split; [exact Hm|].
  destruct (manifest_of_entries _ _ Hrs Hm) as [H _].
  rewrite H. vm_compute. reflexivity.
Defined.

(** ** Line ending conventions and byte order marks *)

(** X8: two files that hold the same text, one with line feeds and one with
    another line ending convention (carriage return and line feed, or
    carriage return alone), are read as the same stream, hence give the
    same long description and the same dependencies. *)
Theorem line_ending_convention_immaterial
    (content content' : list byte) (text ending : str) :
  ending ∈ [[LF]; [CR; LF]; [CR]] →
  utf8_decode content = Some text →
  CR ∉ text →
  utf8_decode content' = Some (with_line_ending ending text) →
  decode_text content' = Some text
  ∧ decode_text content = Some text
  ∧ manifest_requirements content' = manifest_requirements content.
Proof.
  intros Hending Hc Hcr Hc'.
  assert (H' : decode_text content' = Some text).
  { unfold decode_text. rewrite Hc'. simpl.
    rewrite translate_with_line_ending by assumption. reflexivity. }
  assert (H : decode_text content = Some text).
  { unfold decode_text. rewrite Hc. simpl.
    rewrite translate_newlines_id by assumption. reflexivity. }
  split_and!; [exact H'|exact H|].
  unfold manifest_requirements. rewrite H, H'. reflexivity.
Qed.

Lemma line_ending_convention_immaterial_witness :
  [CR; LF] ∈ [[LF]; [CR; LF]; [CR]]
  ∧ utf8_decode (list_byte_of_string "requests" ++ [x0a]
                 ++ list_byte_of_string "numpy" ++ [x0a])
    = Some (lit "requests" ++ [LF] ++ lit "numpy" ++ [LF])
  ∧ (CR ∉ lit "requests" ++ [LF] ++ lit "numpy" ++ [LF])
  ∧ utf8_decode (list_byte_of_string "requests" ++ [x0d; x0a]
                 ++ list_byte_of_string "numpy" ++ [x0d; x0a])
    = Some (with_line_ending [CR; LF]
              (lit "requests" ++ [LF] ++ lit "numpy" ++ [LF]))
  ∧ manifest_requirements (list_byte_of_string "requests" ++ [x0d; x0a]
                           ++ list_byte_of_string "numpy" ++ [x0d; x0a])
    = manifest_requirements (list_byte_of_string "requests" ++ [x0a]
                             ++ list_byte_of_string "numpy" ++ [x0a]).
Proof.
  assert (He : [CR; LF] ∈ [[LF]; [CR; LF]; [CR]])
    by apply list_elem_of_further, list_elem_of_here.
  assert (Hc : utf8_decode (list_byte_of_string "requests" ++ [x0a]
                            ++ list_byte_of_string "numpy" ++ [x0a])
               = Some (lit "requests" ++ [LF] ++ lit "numpy" ++ [LF]))
    by (vm_compute; reflexivity).
  assert (Hcr : CR ∉ lit "requests" ++ [LF] ++ lit "numpy" ++ [LF]).
  { intros Hin. vm_compute in Hin.
    repeat (apply elem_of_cons in Hin as [Hin|Hin]; [discriminate|]).
    apply elem_of_nil in Hin. exact Hin. }
  assert (Hc' : utf8_decode (list_byte_of_string "requests" ++ [x0d; x0a]
                             ++ list_byte_of_string "numpy" ++ [x0d; x0a])
                = Some (with_line_ending [CR; LF]
                          (lit "requests" ++ [LF] ++ lit "numpy" ++ [LF])))
    by (vm_compute; reflexivity).
  split_and!; [exact He|exact Hc|exact Hcr|exact Hc'|].
  exact (proj2 (proj2
    (line_ending_convention_immaterial _ _ _ _ He Hc Hcr Hc'))).
Defined.

(** X9: a byte order mark at the head of requirements.txt is not skipped:
    it reaches the first line as U+FEFF, which is neither white space nor
    the comment sign, so the first line always gives a dependency that
    begins with U+FEFF, also when it is a comment or blank; the other lines
    are read as without the mark. *)
Theorem manifest_bom_kept (manifest : list byte) (text : str) :
  decode_text manifest = Some text →
  manifest_requirements ([xef; xbb; xbf] ++ manifest)
  = Some match iter text with
         | [] => [[0xFEFF]]
         | line :: lines => (0xFEFF :: rstrip line) :: requirements lines
         end.
Proof.
  unfold manifest_requirements, decode_text. intros Hm.
  assert (Hbom : utf8_decode [xef; xbb; xbf] = Some [0xFEFF])
    by (vm_compute; reflexivity).
  rewrite (utf8_decode_app _ manifest _ Hbom).
  destruct (utf8_decode manifest) as [u|]; [|discriminate].
  injection Hm as <-.
  change (Some (requirements (readlines (translate_newlines (0xFEFF :: u))))
          = Some match readlines (translate_newlines u) with
                 | [] => [[0xFEFF]]
                 | line :: lines =>
                     (0xFEFF :: rstrip line) :: requirements lines
                 end).
  f_equal.
  rewrite translate_newlines_other by discriminate.
  rewrite readlines_cons_other by discriminate.
  destruct (readlines (translate_newlines u)) as [|line lines];
    [vm_compute; reflexivity|].
  assert (Hstrip : strip (0xFEFF :: line) = 0xFEFF :: rstrip line).
  { unfold strip. cbn [lstrip].
    change (isspace 0xFEFF) with false. cbn iota.
    apply rstrip_cons. reflexivity. }
  rewrite requirements_cons_keep, Hstrip; [reflexivity|].
  split; [rewrite Hstrip; discriminate|discriminate].
Qed.

Lemma manifest_bom_kept_witness :
  decode_text (list_byte_of_string "# pinned" ++ [x0a]
               ++ list_byte_of_string "numpy")
  = Some (lit "# pinned" ++ [LF] ++ lit "numpy")
  ∧ manifest_requirements (list_byte_of_string "# pinned" ++ [x0a]
                           ++ list_byte_of_string "numpy")
    = Some [lit "numpy"]
  ∧ manifest_requirements ([xef; xbb; xbf]
                           ++ list_byte_of_string "# pinned" ++ [x0a]
                           ++ list_byte_of_string "numpy")
    = Some [0xFEFF :: lit "# pinned"; lit "numpy"].
Proof.
  assert (Hm : decode_text (list_byte_of_string "# pinned" ++ [x0a]
                            ++ list_byte_of_string "numpy")
               = Some (lit "# pinned" ++ [LF] ++ lit "numpy"))
    by (vm_compute; reflexivity).
  split; [exact Hm|]. split; [vm_compute; reflexivity|].
  rewrite (manifest_bom_kept _ _ Hm). vm_compute. reflexivity.
Defined.

(** ** Undecodable bytes *)

(** X10: requirements.txt is decoded as a whole: bytes that are not UTF-8
    anywhere in it, also after any number of well-formed lines and also
    inside a comment, make the descriptor raise; no dependency list is
    built from the part that decodes. *)
Theorem manifest_undecodable_suffix
    (env : environment) (readme before after : list byte) (text : str) :
  files env !! README = Some readme →
  is_Some (decode_text readme) →
  files env !! MANIFEST = Some (before ++ after) →
  utf8_decode before = Some text →
  utf8_decode after = None →
  manifest_requirements (before ++ after) = None
  ∧ evaluate env = Raises (UnicodeDecodeError MANIFEST).
Proof.
  intros Hr [readme_text Hrt] Hm Hbefore Hafter.
  assert (Hdec : decode_text (before ++ after) = None).
  { unfold decode_text.
    rewrite (utf8_decode_app _ after _ Hbefore), Hafter. reflexivity. }
  split.
  - unfold manifest_requirements. rewrite Hdec. reflexivity.
  - unfold evaluate, descriptor, open_. fold README MANIFEST.
    rewrite Hr, Hrt. simpl. rewrite Hm, Hdec. reflexivity.
Qed.

Lemma manifest_undecodable_suffix_witness :
  files latin1_env !! README = Some sample_readme
  ∧ is_Some (decode_text sample_readme)
  ∧ files latin1_env !! MANIFEST
    = Some ((list_byte_of_string "numpy" ++ [x0a]
             ++ list_byte_of_string "# caf")
            ++ [xe9; x0a])
  ∧ utf8_decode (list_byte_of_string "numpy" ++ [x0a]
                 ++ list_byte_of_string "# caf")
    = Some (lit "numpy" ++ [LF] ++ lit "# caf")
  ∧ utf8_decode [xe9; x0a] = None
  ∧ evaluate latin1_env = Raises (UnicodeDecodeError MANIFEST).
Proof.
  assert (Hr : files latin1_env !! README = Some sample_readme)
    by (vm_compute; reflexivity).
  assert (Hrt : is_Some (decode_text sample_readme))
    by (vm_compute; eexists; reflexivity).
  assert (Hm : files latin1_env !! MANIFEST
               = Some ((list_byte_of_string "numpy" ++ [x0a]
                        ++ list_byte_of_string "# caf")
                       ++ [xe9; x0a]))
    by (vm_compute; reflexivity).
  assert (Hb : utf8_decode (list_byte_of_string "numpy" ++ [x0a]
                            ++ list_byte_of_string "# caf")
               = Some (lit "numpy" ++ [LF] ++ lit "# caf"))
    by (vm_compute; reflexivity).
  assert (Ha : utf8_decode [xe9; x0a] = None) by (vm_compute; reflexivity).
  split_and!; [exact Hr|exact Hrt|exact Hm|exact Hb|exact Ha|].
  exact (proj2 (manifest_undecodable_suffix _ _ _ _ _ Hr Hrt Hm Hb Ha)).
Defined.

(** * The whole script *)

Section hosts.

Implicit Types (h : host) (v : N * N).

Lemma version_lt_3_0 v :
  version_lt v (3, 0) = false →
  version_lt v (2, 6) = false.
Proof.
  destruct v as [a b]. unfold version_lt. cbn [fst snd].
  rewrite !orb_false_iff, !andb_false_iff, !N.ltb_ge, !N.eqb_neq.
  intros [Ha _]. split; [lia|]. left. lia.
Qed.

Lemma compile_source_supported h : supported h → compile_source h = Returns ().
Proof.
  intros [Hv _]. unfold compile_source.
  rewrite (version_lt_3_0 _ Hv). reflexivity.
Qed.

(** On a supported host the script is its compilation and import, which
    succeed, followed by the two [open] calls. *)
Lemma run_supported h :
  supported h →
  run h
  = (fh ← open_on h README;
     fh' ← open_on h MANIFEST;
     mret (setup classifiers_literal (directory h)
             (read fh) (requirements (iter fh')))).
Proof.
  intros Hs. unfold run, script.
  rewrite (compile_source_supported h Hs).
  destruct Hs as [_ Hi]. unfold import_setuptools. rewrite Hi. reflexivity.
Qed.

Lemma open_on_readable h filename :
  supported h → readable h filename →
  open_on h filename = open_ (directory h) filename
  ∧ returns (open_on h filename) = true.
Proof.
  intros [Hv _] (Hu & content & Hf & [text Ht]).
  unfold open_on, open_. rewrite Hv, Hu, Hf, Ht. split; reflexivity.
Qed.

Lemma open_on_returns h filename text :
  supported h → open_on h filename = Returns text → readable h filename.
Proof.
  intros [Hv _]. unfold open_on, readable. rewrite Hv.
  destruct (unopenable h !! filename); [discriminate|].
  destruct (files (directory h) !! filename) as [content|] eqn:Hf;
    [|discriminate].
  destruct (decode_text content) as [t|] eqn:Ht; [|discriminate].
  intros _. split; [reflexivity|]. exists content. split; [reflexivity|].
  exists t. exact Ht.
Qed.

Lemma open_on_refused h filename failure :
  supported h → unopenable h !! filename = Some failure →
  open_on h filename = Raises (os_error h (Some failure) filename).
Proof. intros [Hv _] Hu. unfold open_on. rewrite Hv, Hu. reflexivity. Qed.

Lemma open_on_missing h filename :
  supported h → unopenable h !! filename = None →
  files (directory h) !! filename = None →
  open_on h filename = Raises (os_error h None filename).
Proof.
  intros [Hv _] Hu Hf. unfold open_on. rewrite Hv, Hu, Hf. reflexivity.
Qed.

Lemma open_on_undecodable h filename content :
  supported h → unopenable h !! filename = None →
  files (directory h) !! filename = Some content →
  decode_text content = None →
  open_on h filename = Raises (UnicodeDecodeError filename).
Proof.
  intros [Hv _] Hu Hf Hd. unfold open_on. rewrite Hv, Hu, Hf, Hd.
  reflexivity.
Qed.

Lemma run_returns_supported h :
  returns (run h) = true → supported h.
Proof.
  unfold run, script, compile_source, import_setuptools, open_on, supported.
  destruct (version_lt (interpreter h) (2, 6)); [discriminate|].
  destruct (setuptools_importable h).
  - destruct (version_lt (interpreter h) (3, 0)); [discriminate|]. auto.
  - destruct (version_lt (interpreter h) (3, 6)); discriminate.
Qed.

(** Whatever the script passes to [setup] on a host, lines 4 to 59 pass in
    its directory. *)
Lemma run_returns_evaluate h args :
  run h = Returns args →
  supported h ∧ readable h README ∧ readable h MANIFEST
  ∧ evaluate (directory h) = Returns args.
Proof.
  intros Hrun.
  assert (Hs : supported h) by (apply run_returns_supported; rewrite Hrun; reflexivity).
  rewrite (run_supported h Hs) in Hrun.
  destruct (open_on h README) as [fh|] eqn:Hr; [|discriminate].
  destruct (open_on h MANIFEST) as [fh'|] eqn:Hm; [|discriminate].
  apply (open_on_returns h README fh Hs) in Hr as Hrr.
  apply (open_on_returns h MANIFEST fh' Hs) in Hm as Hmr.
  destruct (open_on_readable h README Hs Hrr) as [Hr' _].
  destruct (open_on_readable h MANIFEST Hs Hmr) as [Hm' _].
  split_and!; [exact Hs|exact Hrr|exact Hmr|].
  unfold evaluate, descriptor. fold README MANIFEST.
  rewrite <- Hr', <- Hm', Hr, Hm. exact Hrun.
Qed.

Lemma run_readable h :
  supported h → readable h README → readable h MANIFEST →
  run h = evaluate (directory h) ∧ returns (run h) = true.
Proof.
  intros Hs Hr Hm.
  destruct (open_on_readable h README Hs Hr) as [Hr' Hrr].
  destruct (open_on_readable h MANIFEST Hs Hm) as [Hm' Hmr].
  assert (Heq : run h = evaluate (directory h)).
  { rewrite (run_supported h Hs). unfold evaluate, descriptor.
    fold README MANIFEST. rewrite Hr', Hm'. reflexivity. }
  split; [exact Heq|].
  rewrite (run_supported h Hs).
  destruct (open_on h README); [|discriminate].
  destruct (open_on h MANIFEST); [|discriminate]. reflexivity.
Qed.

End hosts.

(** ** Failure *)




(** ** The declared minimum runtime *)

(** C5: whenever the script reaches [setup] it declares the Python
    requirement [>=3.8], whose bound is release 3.8, and an installer that
    enforces the declared requirement installs exactly on the hosts whose
    interpreter is not below 3.8: on a host below it the installation is
    rejected, or has failed already when the script raised. *)
Theorem python_requires_enforced (h : host) :
  (∀ args,
     run h = Returns args →
     python_requires args = lit ">=3.8"
     ∧ minimum_version (python_requires args) = Some (3, 8)
     ∧ install h = if version_lt (interpreter h) (3, 8)
                   then Rejected (3, 8) else Installed args)
  ∧ (version_lt (interpreter h) (3, 8) = true →
     ∀ args, install h ≠ Installed args).
Proof.
  assert (Hfirst : ∀ args,
     run h = Returns args →
     python_requires args = lit ">=3.8"
     ∧ minimum_version (python_requires args) = Some (3, 8)
     ∧ install h = if version_lt (interpreter h) (3, 8)
                   then Rejected (3, 8) else Installed args).
  { intros args Hrun.
    destruct (run_returns_evaluate h args Hrun) as (_ & _ & _ & Hev).
    apply descriptor_returns_inv in Hev
      as (? & ? & ? & ? & _ & _ & _ & _ & Hargs).
    assert (Hreq : python_requires args = lit ">=3.8")
      by (rewrite Hargs; reflexivity).
    assert (Hmin : minimum_version (python_requires args) = Some (3, 8))
      by (rewrite Hreq; vm_compute; reflexivity).
    split_and!; [exact Hreq|exact Hmin|].
    unfold install. rewrite Hrun, Hmin. reflexivity. }
  split; [exact Hfirst|].
  intros Hv args. unfold install.
  destruct (run h) as [args'|exc] eqn:Hrun; [|discriminate].
  destruct (Hfirst args' eq_refl) as (_ & Hmin & _).
  rewrite Hmin, Hv. discriminate.
Qed.

Lemma python_requires_enforced_witness :
  run older_host = Returns (setup classifiers_literal other_env
                              (long_description sample_args)
                              (install_requires sample_args))
  ∧ interpreter older_host = (3, 7)
  ∧ version_lt (interpreter older_host) (3, 8) = true
  ∧ install older_host = Rejected (3, 8)
  ∧ install sample_host = Installed sample_args.
Proof.
  assert (Hold : run older_host
                 = Returns (setup classifiers_literal other_env
                              (long_description sample_args)
                              (install_requires sample_args)))
    by (vm_compute; reflexivity).
  assert (Hnew : run sample_host = Returns sample_args)
    by (vm_compute; reflexivity).
  split_and!; [exact Hold|reflexivity|reflexivity| |].
  - destruct (proj1 (python_requires_enforced older_host) _ Hold)
      as (_ & _ & ->). reflexivity.
  - destruct (proj1 (python_requires_enforced sample_host) _ Hnew)
      as (_ & _ & ->). reflexivity.
Defined.

(** ** Dependencies by reference *)

(** C2: [install_requires] is loaded from requirements.txt when the
    descriptor runs.  It is a function of the bytes of that file: the
    stripped requirement lines of their text, so that every entry is a
    piece of the text of the file and an empty file gives no entry; equal
    files give equal lists; without the file the descriptor fails; and no
    list written in advance is the dependency list of every run. *)
Theorem install_requires_by_reference :
  (∀ env args,
     evaluate env = Returns args →
     ∃ manifest text,
       files env !! MANIFEST = Some manifest
       ∧ decode_text manifest = Some text
       ∧ install_requires args = spec_install_requires (iter text)
       ∧ (∀ r, r ∈ install_requires args →
            ∃ before after, text = before ++ r ++ after))
  ∧ (∀ env1 env2 args1 args2,
       files env1 !! MANIFEST = files env2 !! MANIFEST →
       evaluate env1 = Returns args1 → evaluate env2 = Returns args2 →
       install_requires args1 = install_requires args2)
  ∧ (∀ env args,
       evaluate env = Returns args → files env !! MANIFEST = Some [] →
       install_requires args = [])
  ∧ (∀ env, files env !! MANIFEST = None → returns (evaluate env) = false)
  ∧ (∀ inline : list str,
       ∃ env args, evaluate env = Returns args ∧ install_requires args ≠ inline).
Proof.
  split_and!.
  - intros env args Hev.
    apply descriptor_returns_inv in Hev
      as (readme & manifest & readme_text & text & _ & _ & Hm & Hmt & ->).
    exists manifest, text. cbn [install_requires setup].
    split_and!; [exact Hm|exact Hmt|apply requirements_filter_map|].
    intros r Hr.
    apply requirements_elem in Hr as (line & Hin & _ & ->).
    destruct (strip_split line) as (ws & ws' & _ & _ & Hline).
    apply list_elem_of_split in Hin as (l1 & l2 & Hlines).
    exists (concat l1 ++ ws), (ws' ++ concat l2).
    rewrite <- (readlines_concat text). unfold iter in Hlines.
    rewrite Hlines, concat_app. cbn [concat].
    rewrite Hline at 1. rewrite <- !app_assoc. reflexivity.
  - intros env1 env2 args1 args2 Hfiles Hev1 Hev2.
    apply descriptor_returns_inv in Hev1
      as (? & manifest1 & ? & text1 & _ & _ & Hm1 & Hmt1 & ->).
    apply descriptor_returns_inv in Hev2
      as (? & manifest2 & ? & text2 & _ & _ & Hm2 & Hmt2 & ->).
    rewrite Hfiles, Hm2 in Hm1. injection Hm1 as <-.
    rewrite Hmt2 in Hmt1. injection Hmt1 as <-. reflexivity.
  - intros env args Hev Hempty.
    apply descriptor_returns_inv in Hev
      as (? & manifest & ? & text & _ & _ & Hm & Hmt & ->).
    rewrite Hempty in Hm. injection Hm as <-.
    injection Hmt as <-. reflexivity.
  - intros env Hm. unfold evaluate, descriptor, open_. fold README MANIFEST.
    rewrite Hm.
    destruct (files env !! README) as [readme|]; [|reflexivity].
    destruct (decode_text readme); reflexivity.
  - intros inline.
    destruct (decide (inline = [])) as [->|Hne].
    + exists sample_env, sample_args.
      split; [vm_compute; reflexivity|]. vm_compute. discriminate.
    + exists comments_env, comments_args.
      split; [vm_compute; reflexivity|].
      change (install_requires comments_args) with (@nil str). congruence.
Qed.

Lemma install_requires_by_reference_witness :
  evaluate sample_env = Returns sample_args
  ∧ ∃ manifest text,
      files sample_env !! MANIFEST = Some manifest
      ∧ decode_text manifest = Some text
      ∧ install_requires sample_args = spec_install_requires (iter text).
Proof.
  assert (Hev : evaluate sample_env = Returns sample_args)
    by (vm_compute; reflexivity).
  split; [exact Hev|].
  destruct (proj1 install_requires_by_reference sample_env sample_args Hev)
    as (manifest & text & Hm & Hmt & Hreq & _).
  exists manifest, text. auto.
Defined.

(** ** The line format of the manifest, entry by entry *)

Lemma requirement_line_entry
    (before : list str) (line : str) (after : list str) :
  ¬ whitespace line → head line ≠ Some 0x23 →
  requirements (before ++ line :: after)
  = requirements before ++ strip line :: requirements after.
Proof.
  intros Hws Hhead. rewrite requirements_app.
  rewrite requirements_cons_keep; [reflexivity|].
  split; [|exact Hhead]. intros Hnil. apply Hws, strip_nil_whitespace, Hnil.
Qed.

(** C8, as amended: README.md is handed to [setup] as the text the stream
    delivers, but requirements.txt is read under a line format of the
    descriptor's own: no line gives no entry; a line that is neither white
    space nor begun by the comment sign gives one entry, the line stripped,
    at its place; a line whose first character is the comment sign and a
    line of white space give nothing; and white space around a line is not
    part of its entry. *)
Theorem manifest_line_format (env : environment) (args : setup_args) :
  evaluate env = Returns args →
  ∃ readme_text text,
    files env !! README ≫= decode_text = Some readme_text
    ∧ files env !! MANIFEST ≫= decode_text = Some text
    ∧ long_description args = readme_text
    ∧ install_requires args = requirements (iter text)
    ∧ requirements [] = []
    ∧ (∀ before line after,
         ¬ whitespace line → head line ≠ Some 0x23 →
         requirements (before ++ line :: after)
         = requirements before ++ strip line :: requirements after)
    ∧ (∀ before line after,
         head line = Some 0x23 →
         requirements (before ++ line :: after)
         = requirements before ++ requirements after)
    ∧ (∀ before line after,
         whitespace line →
         requirements (before ++ line :: after)
         = requirements before ++ requirements after)
    ∧ (∀ before ws line ws' after,
         whitespace ws → whitespace ws' → head line ≠ Some 0x23 →
         requirements (before ++ (ws ++ line ++ ws') :: after)
         = requirements (before ++ line :: after)).
Proof.
  intros Hev.
  apply descriptor_returns_inv in Hev
    as (readme & manifest & readme_text & text & Hr & Hrt & Hm & Hmt & ->).
  exists readme_text, text. rewrite Hr, Hm. simpl.
  split_and!.
  - exact Hrt.
  - exact Hmt.
  - reflexivity.
  - reflexivity.
  - reflexivity.
  - apply requirement_line_entry.
  - intros before line after Hhead.
    rewrite <- requirements_app. apply comment_line_ignored, Hhead.
  - intros before line after Hws.
    rewrite <- requirements_app. apply blank_line_ignored, Hws.
  - apply padding_ignored.
Qed.

Lemma manifest_line_format_witness :
  evaluate sample_env = Returns sample_args
  ∧ ∃ text,
      files sample_env !! MANIFEST ≫= decode_text = Some text
      ∧ install_requires sample_args = requirements (iter text)
      ∧ install_requires sample_args
        = [lit "# indented"; lit "requests>=2.31"; lit "numpy"].
Proof.
  assert (Hev : evaluate sample_env = Returns sample_args)
    by (vm_compute; reflexivity).
  split; [exact Hev|].
  destruct (manifest_line_format sample_env sample_args Hev)
    as (readme_text & text & _ & Hm & _ & Hreq & _).
  exists text. split_and!; [exact Hm|exact Hreq|reflexivity].
Defined.
